(** * Tables_Generator: a shallow embedding of [main.py]

    The script builds a data set of LaTeX tables: for a grid of row and
    column counts it generates the cells of a table, renders them into a
    LaTeX document by placeholder substitution, has the document compiled
    to a PDF and writes the same cells to a CSV file.

    The embedding keeps the layout of the script: the Python built-ins it
    relies on ([str], [range], [str.join], [str.replace], [*] on strings,
    [/] and [int]), the module constants, then the functions in source
    order, then the [__main__] block.  Random text, the clock and the LaTeX
    compiler are external collaborators and are taken as an interface. *)

From Stdlib Require Import ZArith QArith List String Ascii Bool Lia.
From Stdlib Require Import DecimalString DecimalZ DecimalPos.
Import ListNotations.

Close Scope Q_scope.
Open Scope Z_scope.
Open Scope list_scope.
Open Scope string_scope.

Set Implicit Arguments.

(* ================================================================= *)
(** ** Python built-ins used by the script *)

Module Py.

(** [str(i)] for an [int]: canonical decimal, a leading [-] when negative. *)
Definition str (i : Z) : string := NilZero.string_of_int (Z.to_int i).

(** [int(s)] restricted to the canonical decimal numerals [str] produces. *)
Definition parse_int (s : string) : option Z :=
  option_map Z.of_int (NilZero.int_of_string s).

(** An f-string renders a [bool] through [str]: [True] or [False]. *)
Definition str_bool (b : bool) : string := if b then "True" else "False".

(** [range(n)] and [range(lo, hi)]: empty when the bound is not above the
    start. *)
Definition range2 (lo hi : Z) : list Z :=
  map (fun k => lo + Z.of_nat k) (seq 0 (Z.to_nat (hi - lo))).

Definition range (n : Z) : list Z := range2 0 n.

Definition len {A : Type} (l : list A) : Z := Z.of_nat (List.length l).

(** [s * n]: [n] copies of [s]; the empty string when [n <= 0]. *)
Fixpoint repeat_str (s : string) (n : nat) : string :=
  match n with
  | O => ""
  | S k => (s ++ repeat_str s k)%string
  end.

Definition mul (s : string) (n : Z) : string := repeat_str s (Z.to_nat n).

(** [c in s] for a single character [c]. *)
Fixpoint mem_char (c : ascii) (s : string) : bool :=
  match s with
  | EmptyString => false
  | String d s' => Ascii.eqb c d || mem_char c s'
  end.

(** [sep.join(l)]. *)
Definition join (sep : string) (l : list string) : string :=
  String.concat sep l.

(** [s.replace(old, new)]: every non-overlapping occurrence of [old],
    scanning from the left; the replacement text is not scanned again.
    [skip] counts the characters of a matched occurrence still to be
    dropped.  With an empty [old] Python inserts [new] before every
    character and at the end. *)
Fixpoint replace_from (old new : string) (skip : nat) (s : string) : string :=
  match s with
  | EmptyString => EmptyString
  | String c s' =>
      match skip with
      | S k => replace_from old new k s'
      | O =>
          if String.prefix old s
          then (new ++ replace_from old new (String.length old - 1) s')%string
          else String c (replace_from old new 0 s')
      end
  end.

Fixpoint intersperse (new s : string) : string :=
  match s with
  | EmptyString => new
  | String c s' => (new ++ String c (intersperse new s'))%string
  end.

Definition replace (old new s : string) : string :=
  match old with
  | EmptyString => intersperse new s
  | String _ _ => replace_from old new 0 s
  end.

(** [a / b] on numbers is true division; the script only applies it to
    integers.  Its value is taken as the exact quotient: the operands that
    occur are small integers, and the rounding of the double division is
    monotone, so it never crosses the integer [int] truncates to.  A zero
    divisor raises [ZeroDivisionError], rendered as [None]. *)
Definition true_div (a b : Z) : option Q :=
  if Z.eqb b 0 then None else Some (Qdiv (inject_Z a) (inject_Z b)).

(** [int(x)] on a float: truncation toward zero. *)
Definition int_of_float (x : Q) : Z := Z.quot (Qnum x) (Zpos (Qden x)).

End Py.

(* ================================================================= *)
(** ** Module constants *)

Definition nl : string := String (ascii_of_nat 10) "".

Definition ROW_COUNT_MIN : Z := 2.
Definition ROW_COUNT_MAX : Z := 10.
Definition COLUMNS_COUNT_MIN : Z := 2.
Definition COLUMNS_COUNT_MAX : Z := 8.

Definition COLUMN_DELIMITER : string := "|".
Definition COLUMN_SEPARATOR : string := "&".
Definition NEW_ROW_SYMBOL : string := "\\".
Definition TEXT_IN_CELL_ORIENTATION : string := "l".
Definition TABLE_HORIZONTAL_LINE : string := "\hline".

Definition TEXT_BEFORE_TABLE : string := "_TEXT_BEFORE_TABLE".
Definition TEXT_AFTER_TABLE : string := "_TEXT_AFTER_TABLE".
Definition TABLE : string := "_THE_TABLE_".
Definition TABLE_SCHEMA : string := "_TABLE_SCHEMA".
Definition TABLE_ROWS_LIST : string := "_TABLE_ROWS_LIST".
Definition TABLE_TITLE : string := "_TABLE_TITLE".

Definition DIRECTORY_NAME : string := "tables".

Definition TEX_DOCUMENT_PATTERN : string :=
  "\documentclass{article}" ++ nl ++
  "\usepackage[a4paper, portrait, margin=1in]{geometry}" ++ nl ++
  "\usepackage[utf8x]{inputenc}" ++ nl ++
  "\usepackage{tabularx}" ++ nl ++
  "\begin{document}" ++ nl ++
  TEXT_BEFORE_TABLE ++ nl ++
  nl ++
  TABLE ++ nl ++
  TEXT_AFTER_TABLE ++ nl ++
  "\end{document}".

Definition TEX_TABLE_PATTERN : string :=
  "\begin{tabular}{" ++ TABLE_SCHEMA ++ "}" ++ nl ++
  "\hline" ++
  (nl ++ TABLE_TITLE) ++
  "\\ \hline" ++
  nl ++
  (TABLE_ROWS_LIST ++ " \\ \hline") ++
  nl ++
  "\end{tabular}" ++
  nl.

(* ================================================================= *)
(** ** The [csv] module of the Python library, as the script configures it

    [csv.writer(csv_file, quotechar='|', quoting=csv.QUOTE_MINIMAL)]: the
    [excel] dialect with its quote character replaced.  The delimiter is a
    comma, the line terminator is CR LF, there is no escape character and a
    quote character inside a field is doubled.  The script only writes; the
    reader is the library's parser for the same dialect, over the lines of
    a file opened with [newline=''] (a line ends after LF, CR LF or a lone
    CR and keeps its terminator).  The reader's limit on the size of a
    field, a setting of the library, is left out. *)

Module Csv.

Definition delimiter : ascii := ",".
Definition quotechar : ascii := "|".
Definition CR : ascii := ascii_of_nat 13.
Definition LF : ascii := ascii_of_nat 10.
Definition lineterminator : string := String CR (String LF "").

(** The characters that make the writer quote a field. *)
Definition special (c : ascii) : bool :=
  Ascii.eqb c delimiter || Ascii.eqb c quotechar
  || Py.mem_char c lineterminator.

Fixpoint has_special (field : string) : bool :=
  match field with
  | EmptyString => false
  | String c s => special c || has_special s
  end.

(** The field's characters as written, a quote character doubled. *)
Fixpoint doubled (field : string) : string :=
  match field with
  | EmptyString => EmptyString
  | String c s =>
      if Ascii.eqb c quotechar
      then String quotechar (String c (doubled s))
      else String c (doubled s)
  end.

(** One field as the writer appends it; [quote_empty] is set when the whole
    record would otherwise be empty. *)
Definition join_append_data (field : string) (quote_empty : bool) : string :=
  let quoted :=
    has_special field || (quote_empty && (String.length field =? 0)%nat) in
  if quoted
  then String quotechar (doubled field ++ String quotechar "")
  else field.

(** A field of a row: the writer decides by itself whether to quote. *)
Definition encode (field : string) : string := join_append_data field false.

(** [writer.writerow(row)]: the text handed to the file's [write]. *)
Definition writerow (row : list string) : string :=
  let rec := Py.join (String delimiter "") (map encode row) in
  let rec :=
    if (0 <? List.length row)%nat && (String.length rec =? 0)%nat
    then join_append_data "" true
    else rec in
  rec ++ lineterminator.

(** The text of a file after [writerow] on each row in turn. *)
Definition writerows (rows : list (list string)) : string :=
  fold_left (fun file row => (file ++ writerow row)%string) rows "".

(** *** Reading *)

(** Iterating a text file opened with [newline='']. *)
Fixpoint lines_from (cur : string) (s : string) : list string :=
  match s with
  | EmptyString =>
      match cur with
      | EmptyString => []
      | _ => [cur]
      end
  | String c s' =>
      if Ascii.eqb c LF
      then (cur ++ String c "") :: lines_from "" s'
      else if Ascii.eqb c CR
      then match s' with
           | String d s'' =>
               if Ascii.eqb d LF
               then (cur ++ String c (String d "")) :: lines_from "" s''
               else (cur ++ String c "") :: lines_from "" s'
           | EmptyString => (cur ++ String c "") :: lines_from "" s'
           end
      else lines_from (cur ++ String c "") s'
  end.

Definition readlines (s : string) : list string := lines_from "" s.

(** The states of the parser the dialect can reach (without an escape
    character the escape states are never entered). *)
Inductive ParserState : Type :=
| START_RECORD
| START_FIELD
| IN_FIELD
| IN_QUOTED_FIELD
| QUOTE_IN_QUOTED_FIELD
| EAT_CRNL.

Definition state_eqb (a b : ParserState) : bool :=
  match a, b with
  | START_RECORD, START_RECORD
  | START_FIELD, START_FIELD
  | IN_FIELD, IN_FIELD
  | IN_QUOTED_FIELD, IN_QUOTED_FIELD
  | QUOTE_IN_QUOTED_FIELD, QUOTE_IN_QUOTED_FIELD
  | EAT_CRNL, EAT_CRNL => true
  | _, _ => false
  end.

Record ReaderObj : Type := mkReader {
  state : ParserState;
  fields : list string;
  field : string
}.

Definition parse_reset : ReaderObj := mkReader START_RECORD [] "".

Definition parse_save_field (r : ReaderObj) : ReaderObj :=
  mkReader (state r) (fields r ++ [field r])%list "".

Definition parse_add_char (r : ReaderObj) (c : ascii) : ReaderObj :=
  mkReader (state r) (fields r) (field r ++ String c "").

Definition set_state (r : ReaderObj) (st : ParserState) : ReaderObj :=
  mkReader st (fields r) (field r).

Definition is_newline (c : ascii) : bool := Ascii.eqb c LF || Ascii.eqb c CR.

(** One step of the parser; the character [None] is the end-of-line mark
    the reader feeds after each line.  The result [None] is [csv.Error]. *)
Definition parse_process_char (r : ReaderObj) (c : option ascii)
  : option ReaderObj :=
  let start_field (r : ReaderObj) :=
    match c with
    | None => Some (set_state (parse_save_field r) START_RECORD)
    | Some ch =>
        if is_newline ch then Some (set_state (parse_save_field r) EAT_CRNL)
        else if Ascii.eqb ch quotechar then Some (set_state r IN_QUOTED_FIELD)
        else if Ascii.eqb ch delimiter then Some (parse_save_field r)
        else Some (set_state (parse_add_char r ch) IN_FIELD)
    end in
  match state r with
  | START_RECORD =>
      match c with
      | None => Some r
      | Some ch =>
          if is_newline ch then Some (set_state r EAT_CRNL)
          else start_field (set_state r START_FIELD)
      end
  | START_FIELD => start_field r
  | IN_FIELD =>
      match c with
      | None => Some (set_state (parse_save_field r) START_RECORD)
      | Some ch =>
          if is_newline ch then Some (set_state (parse_save_field r) EAT_CRNL)
          else if Ascii.eqb ch delimiter
          then Some (set_state (parse_save_field r) START_FIELD)
          else Some (parse_add_char r ch)
      end
  | IN_QUOTED_FIELD =>
      match c with
      | None => Some r
      | Some ch =>
          if Ascii.eqb ch quotechar
          then Some (set_state r QUOTE_IN_QUOTED_FIELD)
          else Some (parse_add_char r ch)
      end
  | QUOTE_IN_QUOTED_FIELD =>
      match c with
      | None => Some (set_state (parse_save_field r) START_RECORD)
      | Some ch =>
          if Ascii.eqb ch quotechar
          then Some (set_state (parse_add_char r ch) IN_QUOTED_FIELD)
          else if Ascii.eqb ch delimiter
          then Some (set_state (parse_save_field r) START_FIELD)
          else if is_newline ch
          then Some (set_state (parse_save_field r) EAT_CRNL)
          else Some (set_state (parse_add_char r ch) IN_FIELD)
      end
  | EAT_CRNL =>
      match c with
      | None => Some (set_state r START_RECORD)
      | Some ch => if is_newline ch then Some r else None
      end
  end.

Fixpoint process_line (r : ReaderObj) (line : string) : option ReaderObj :=
  match line with
  | EmptyString => Some r
  | String c line' =>
      match parse_process_char r (Some c) with
      | Some r' => process_line r' line'
      | None => None
      end
  end.

(** [list(csv.reader(lines, quotechar='|'))]: a record is complete when
    the parser is back in [START_RECORD] after a line; a record left open
    when the lines run out is returned if it holds anything. *)
Fixpoint records_from (r : ReaderObj) (lines : list string)
  : option (list (list string)) :=
  match lines with
  | [] =>
      if negb (String.length (field r) =? 0)%nat
         || state_eqb (state r) IN_QUOTED_FIELD
      then Some [fields (parse_save_field r)]
      else Some []
  | line :: rest =>
      match process_line r line with
      | None => None
      | Some r1 =>
          match parse_process_char r1 None with
          | None => None
          | Some r2 =>
              if state_eqb (state r2) START_RECORD
              then option_map (cons (fields r2)) (records_from parse_reset rest)
              else records_from r2 rest
          end
      end
  end.

Definition reader (file : string) : option (list (list string)) :=
  records_from parse_reset (readlines file).

(** *** The reader, character by character

    The same computation with the lines dissolved: the parser state after
    the characters read so far, and whether the current line has any
    character yet.  The end-of-line mark is fed where a line ends. *)

Definition end_of_input (r : ReaderObj) : option (list (list string)) :=
  if negb (String.length (field r) =? 0)%nat
     || state_eqb (state r) IN_QUOTED_FIELD
  then Some [fields (parse_save_field r)]
  else Some [].

Definition end_of_line (r : ReaderObj)
  (continue : ReaderObj -> option (list (list string)))
  : option (list (list string)) :=
  match parse_process_char r None with
  | None => None
  | Some r2 =>
      if state_eqb (state r2) START_RECORD
      then option_map (cons (fields r2)) (continue parse_reset)
      else continue r2
  end.

Fixpoint run (r : ReaderObj) (pending : bool) (s : string)
  : option (list (list string)) :=
  match s with
  | EmptyString =>
      if pending then end_of_line r end_of_input else end_of_input r
  | String c s' =>
      match parse_process_char r (Some c) with
      | None => None
      | Some r1 =>
          if Ascii.eqb c LF
          then end_of_line r1 (fun r' => run r' false s')
          else if Ascii.eqb c CR
          then match s' with
               | String d s'' =>
                   if Ascii.eqb d LF
                   then match parse_process_char r1 (Some d) with
                        | None => None
                        | Some r2 =>
                            end_of_line r2 (fun r' => run r' false s'')
                        end
                   else end_of_line r1 (fun r' => run r' false s')
               | EmptyString => end_of_line r1 (fun r' => run r' false s')
               end
          else run r1 true s'
      end
  end.

End Csv.

(* ================================================================= *)
(** ** External collaborators and the state of a run *)

(** What the script imports and does not define: the [lorem] text
    generator with its hidden random state, the wall clock behind
    [time.time()], and [latex.build_pdf], which may fail. *)
Class Externals : Type := {
  Rng : Type;
  Clock : Type;
  Pdf : Type;
  lorem_sentence : Rng -> string * Rng;
  lorem_paragraph : Rng -> string * Rng;
  time_time : Clock -> Q * Clock;
  build_pdf : string -> option Pdf
}.

Inductive exn : Type :=
| ZeroDivisionError
| LatexBuildError.

Inductive outcome (A : Type) : Type :=
| Return (a : A)
| Raise (e : exn).

Arguments Return {A} a.
Arguments Raise {A} e.

Section Program.

Context {E : Externals}.

(** A file's content: the compiled document or the text of the CSV file. *)
Inductive content : Type :=
| PdfData (p : Pdf)
| TextData (s : string).

(** [written] is the log of the files written, oldest first. *)
Record World : Type := mkWorld {
  rng : Rng;
  clock : Clock;
  dirs : list string;
  written : list (string * content)
}.

(** Computations of the script: they thread the world and may raise. *)
Definition M (A : Type) : Type := World -> outcome A * World.

Definition ret {A : Type} (a : A) : M A := fun w => (Return a, w).

Definition bind {A B : Type} (m : M A) (k : A -> M B) : M B :=
  fun w =>
    match m w with
    | (Return a, w') => k a w'
    | (Raise e, w') => (Raise e, w')
    end.

Definition raise {A : Type} (e : exn) : M A := fun w => (Raise e, w).

Notation "x <- m ;; k" := (bind m (fun x => k))
  (at level 61, m at next level, right associativity).
Notation "m ;;; k" := (bind m (fun _ => k))
  (at level 61, right associativity).

(** [for x in xs: acc = body(acc, x)], with [acc] the local variables the
    loop body updates. *)
Fixpoint for_in {X S : Type} (xs : list X) (acc : S) (body : S -> X -> M S)
  : M S :=
  match xs with
  | [] => ret acc
  | x :: xs' => acc' <- body acc x ;; for_in xs' acc' body
  end.

Definition sentence : M string :=
  fun w =>
    let (s, g) := lorem_sentence (rng w) in
    (Return s, mkWorld g (clock w) (dirs w) (written w)).

Definition paragraph : M string :=
  fun w =>
    let (s, g) := lorem_paragraph (rng w) in
    (Return s, mkWorld g (clock w) (dirs w) (written w)).

Definition now : M Q :=
  fun w =>
    let (t, c) := time_time (clock w) in
    (Return t, mkWorld (rng w) c (dirs w) (written w)).

(* ================================================================= *)
(** ** The functions of the script *)

Definition get_schema (number_of_columns : Z) (text_position : string)
  : string :=
  (Py.mul ("|" ++ text_position) number_of_columns ++ "|")%string.

Definition get_text (number_of_sentences : Z) : M string :=
  s <- sentence ;;
  ret (Py.mul s number_of_sentences).

Definition get_table_title (number_of_columns : Z)
  (title_generic_name : string) : list string :=
  map (fun i => (title_generic_name ++ Py.str i)%string)
      (Py.range number_of_columns).

Definition generate_data (number_of_rows number_of_columns : Z)
  (filling_is_sentences : bool) : M (list (list string)) :=
  for_in (Py.range number_of_rows) [] (fun table r =>
    cells_in_row <-
      for_in (Py.range number_of_columns) [] (fun cells_in_row c =>
        cell_filling <-
          (if filling_is_sentences
           then sentence
           else t <- now ;; ret (Py.str (Py.int_of_float t))) ;;
        ret (cells_in_row ++ [cell_filling])%list) ;;
    ret (table ++ [cells_in_row])%list).

(** [int(table_width_cm / number_of_columns)], the width of a cell in the
    body of [generate_tex_code]; [None] when the division raises. *)
Definition cell_width (table_width_cm number_of_columns : Z) : option Z :=
  option_map Py.int_of_float (Py.true_div table_width_cm number_of_columns).

Definition generate_tex_code (table_data : list (list string))
  (table_title_data : list string) : M string :=
  text_before <- paragraph ;;
  text_after <- paragraph ;;
  let number_of_columns := Py.len table_title_data in
  let tex_table_title :=
    Py.join (" " ++ COLUMN_SEPARATOR ++ " ") table_title_data in
  let table :=
    fold_left
      (fun table row =>
         (table ++ [Py.join (" " ++ COLUMN_SEPARATOR ++ " ") row])%list)
      table_data [] in
  let tex_rows :=
    Py.join (" " ++ NEW_ROW_SYMBOL ++ " " ++ TABLE_HORIZONTAL_LINE ++ nl)
            table in
  let table_width_cm := 15 in
  match cell_width table_width_cm number_of_columns with
  | None => raise ZeroDivisionError
  | Some width =>
      let cell_schema := "p{" ++ Py.str width ++ "cm}" in
      let schema := get_schema number_of_columns cell_schema in
      let tex_table :=
        Py.replace TABLE_TITLE tex_table_title
          (Py.replace TABLE_SCHEMA schema
             (Py.replace TABLE_ROWS_LIST tex_rows TEX_TABLE_PATTERN)) in
      let tex_document :=
        Py.replace TEXT_AFTER_TABLE text_after
          (Py.replace TABLE tex_table
             (Py.replace TEXT_BEFORE_TABLE text_before
                TEX_DOCUMENT_PATTERN)) in
      ret tex_document
  end.

(** *** The [__main__] block *)

Definition path_exists (path : string) : M bool :=
  fun w => (Return (existsb (String.eqb path) (dirs w)), w).

Definition makedirs (path : string) : M unit :=
  fun w => (Return tt, mkWorld (rng w) (clock w) (dirs w ++ [path])%list (written w)).

Definition write_file (path : string) (c : content) : M unit :=
  fun w =>
    (Return tt, mkWorld (rng w) (clock w) (dirs w) (written w ++ [(path, c)])%list).

Definition compile_pdf (tex_code : string) : M Pdf :=
  match build_pdf tex_code with
  | Some pdf => ret pdf
  | None => raise LatexBuildError
  end.

(** The text of the CSV file: the title row, then each row of the table. *)
Definition csv_text (table_title : list string)
  (table_data : list (list string)) : string :=
  fold_left (fun file row => (file ++ Csv.writerow row)%string) table_data
            (Csv.writerow table_title).

Definition file_path_of (r_c c_c : Z) (filling : bool) : string :=
  ("./" ++ DIRECTORY_NAME ++ "/" ++ Py.str r_c ++ "_" ++ Py.str c_c ++ "_"
        ++ Py.str_bool filling)%string.

Definition iteration (r_c c_c : Z) (filling : bool) : M unit :=
  table_data <- generate_data r_c c_c filling ;;
  let table_title := get_table_title c_c "title" in
  present <- path_exists DIRECTORY_NAME ;;
  (if negb present then makedirs DIRECTORY_NAME else ret tt) ;;;
  let file_path := file_path_of r_c c_c filling in
  tex_code <- generate_tex_code table_data table_title ;;
  pdf <- compile_pdf tex_code ;;
  write_file (file_path ++ ".pdf") (PdfData pdf) ;;;
  write_file (file_path ++ ".csv") (TextData (csv_text table_title table_data)).

Definition main : M unit :=
  for_in (Py.range2 ROW_COUNT_MIN ROW_COUNT_MAX) tt (fun _ r_c =>
    for_in (Py.range2 COLUMNS_COUNT_MIN COLUMNS_COUNT_MAX) tt (fun _ c_c =>
      for_in [true; false] tt (fun _ filling =>
        iteration r_c c_c filling))).

End Program.

Arguments World : clear implicits.
Arguments M : clear implicits.

(* ================================================================= *)
(** ** Reading of the specification's [n] independent sentences

    The specification's wording for [get_text]: [n] sentences, each drawn
    from the generator, joined without a separator.  It is compared with
    [get_text] below. *)

Section Independent.

Context {E : Externals}.

Fixpoint sentences (n : nat) : M E string :=
  match n with
  | O => ret ""
  | S k => bind sentence (fun s => bind (sentences k) (fun t => ret (s ++ t)))
  end.

Definition get_text_independent (number_of_sentences : Z) : M E string :=
  sentences (Z.to_nat number_of_sentences).

End Independent.

(* ================================================================= *)
(** ** A concrete run

    Collaborators that can be computed with: the generator numbers its
    sentences and paragraphs, the clock advances by one second per reading
    and is read half a second past the full second, and the compiler
    returns the markup it is given. *)

Definition demo : Externals := {|
  Rng := nat;
  Clock := N;
  Pdf := string;
  lorem_sentence := fun n => ("Lorem " ++ Py.str (Z.of_nat n) ++ ".", S n);
  lorem_paragraph := fun n => ("Ipsum " ++ Py.str (Z.of_nat n) ++ ".", S n);
  time_time := fun c => (Qmake (2 * Z.of_N c + 1) 2, N.succ c);
  build_pdf := fun tex => Some tex
|}.

Definition demo_world : World demo := @mkWorld demo 0%nat 1700000000%N [] [].

(* ================================================================= *)
(** ** Vocabulary for the rendered table *)

(** The separator [generate_tex_code] joins the row lines with; the table
    pattern ends the rows with the same characters. *)
Definition ROW_TERMINATOR : string :=
  " " ++ NEW_ROW_SYMBOL ++ " " ++ TABLE_HORIZONTAL_LINE ++ nl.

(** The separator between the cells of a line. *)
Definition CELL_SEPARATOR : string := " " ++ COLUMN_SEPARATOR ++ " ".

(** Lines, each followed by the row terminator. *)
Fixpoint terminated (lines : list string) : string :=
  match lines with
  | [] => ""
  | line :: rest => line ++ ROW_TERMINATOR ++ terminated rest
  end.

(** A placeholder of the patterns: it starts with an underscore and holds
    neither a space nor a line feed. *)
Definition is_placeholder (p : string) : bool :=
  String.prefix "_" p && negb (Py.mem_char " " p)
  && negb (Py.mem_char (ascii_of_nat 10) p).

(** What the substitutions that follow the insertion of the rows do to a
    row line: the schema, the title and the closing paragraph replace
    their placeholders wherever these occur, inside cells too. *)
Definition later_passes (schema title_line text_after line : string)
  : string :=
  Py.replace TEXT_AFTER_TABLE text_after
    (Py.replace TABLE_TITLE title_line
       (Py.replace TABLE_SCHEMA schema line)).

(** The schema [generate_tex_code] computes for [n] columns. *)
Definition schema_for (n : Z) : string :=
  get_schema n ("p{" ++ Py.str (15 / n) ++ "cm}").

(** The text of a table: opening line, rule, header line, rows, end. *)
Definition table_text (opening rule header body ending : string) : string :=
  opening ++ nl ++ rule ++ nl ++ header ++ nl ++ body ++ ending.

(** The lines of the document pattern above the opening paragraph. *)
Definition DOCUMENT_HEAD : string :=
  "\documentclass{article}" ++ nl ++
  "\usepackage[a4paper, portrait, margin=1in]{geometry}" ++ nl ++
  "\usepackage[utf8x]{inputenc}" ++ nl ++
  "\usepackage{tabularx}" ++ nl ++
  "\begin{document}".

(** The row lines [generate_tex_code] joins; the rows placeholder of an
    empty table is replaced by the empty text, which the pattern still
    terminates. *)
Definition row_lines (table_data : list (list string)) : list string :=
  match table_data with
  | [] => [""]
  | _ => map (Py.join CELL_SEPARATOR) table_data
  end.

(* ================================================================= *)
(** ** Vocabulary for the sweep *)

(** The two files of one combination. *)
Definition artifact_paths (r_c c_c : Z) (filling : bool) : list string :=
  [file_path_of r_c c_c filling ++ ".pdf";
   file_path_of r_c c_c filling ++ ".csv"].

(** The files of the sweep in the order of writing: row counts 2 to 9,
    column counts 2 to 7, sentences before timestamps. *)
Definition sweep_paths : list string :=
  flat_map (fun r_c =>
    flat_map (fun c_c =>
      flat_map (artifact_paths r_c c_c) [true; false])
      [2; 3; 4; 5; 6; 7])
    [2; 3; 4; 5; 6; 7; 8; 9].

(** The combinations of the sweep in the order of the loops: row counts
    2 to 9, for each of them column counts 2 to 7, for each of them
    sentences, then timestamps. *)
Definition sweep_combinations : list (Z * Z * bool) :=
  flat_map (fun r_c =>
    flat_map (fun c_c => map (fun filling => (r_c, c_c, filling))
                             [true; false])
      [2; 3; 4; 5; 6; 7])
    [2; 3; 4; 5; 6; 7; 8; 9].

(** The names of the two files of a combination, written out:
    [./tables/{row_count}_{column_count}_{filling}] followed by [.pdf]
    and by [.csv]. *)
Definition named_files (p : Z * Z * bool) : list string :=
  let '(row_count, column_count, filling) := p in
  ["./tables/" ++ Py.str row_count ++ "_" ++ Py.str column_count ++ "_"
     ++ (if filling then "True" else "False") ++ ".pdf";
   "./tables/" ++ Py.str row_count ++ "_" ++ Py.str column_count ++ "_"
     ++ (if filling then "True" else "False") ++ ".csv"].

(** The files a complete sweep writes, name by name, in the order of
    writing. *)
Definition sweep_files : list string :=
  [
   "./tables/2_2_True.pdf"; "./tables/2_2_True.csv";
   "./tables/2_2_False.pdf"; "./tables/2_2_False.csv";
   "./tables/2_3_True.pdf"; "./tables/2_3_True.csv";
   "./tables/2_3_False.pdf"; "./tables/2_3_False.csv";
   "./tables/2_4_True.pdf"; "./tables/2_4_True.csv";
   "./tables/2_4_False.pdf"; "./tables/2_4_False.csv";
   "./tables/2_5_True.pdf"; "./tables/2_5_True.csv";
   "./tables/2_5_False.pdf"; "./tables/2_5_False.csv";
   "./tables/2_6_True.pdf"; "./tables/2_6_True.csv";
   "./tables/2_6_False.pdf"; "./tables/2_6_False.csv";
   "./tables/2_7_True.pdf"; "./tables/2_7_True.csv";
   "./tables/2_7_False.pdf"; "./tables/2_7_False.csv";
   "./tables/3_2_True.pdf"; "./tables/3_2_True.csv";
   "./tables/3_2_False.pdf"; "./tables/3_2_False.csv";
   "./tables/3_3_True.pdf"; "./tables/3_3_True.csv";
   "./tables/3_3_False.pdf"; "./tables/3_3_False.csv";
   "./tables/3_4_True.pdf"; "./tables/3_4_True.csv";
   "./tables/3_4_False.pdf"; "./tables/3_4_False.csv";
   "./tables/3_5_True.pdf"; "./tables/3_5_True.csv";
   "./tables/3_5_False.pdf"; "./tables/3_5_False.csv";
   "./tables/3_6_True.pdf"; "./tables/3_6_True.csv";
   "./tables/3_6_False.pdf"; "./tables/3_6_False.csv";
   "./tables/3_7_True.pdf"; "./tables/3_7_True.csv";
   "./tables/3_7_False.pdf"; "./tables/3_7_False.csv";
   "./tables/4_2_True.pdf"; "./tables/4_2_True.csv";
   "./tables/4_2_False.pdf"; "./tables/4_2_False.csv";
   "./tables/4_3_True.pdf"; "./tables/4_3_True.csv";
   "./tables/4_3_False.pdf"; "./tables/4_3_False.csv";
   "./tables/4_4_True.pdf"; "./tables/4_4_True.csv";
   "./tables/4_4_False.pdf"; "./tables/4_4_False.csv";
   "./tables/4_5_True.pdf"; "./tables/4_5_True.csv";
   "./tables/4_5_False.pdf"; "./tables/4_5_False.csv";
   "./tables/4_6_True.pdf"; "./tables/4_6_True.csv";
   "./tables/4_6_False.pdf"; "./tables/4_6_False.csv";
   "./tables/4_7_True.pdf"; "./tables/4_7_True.csv";
   "./tables/4_7_False.pdf"; "./tables/4_7_False.csv";
   "./tables/5_2_True.pdf"; "./tables/5_2_True.csv";
   "./tables/5_2_False.pdf"; "./tables/5_2_False.csv";
   "./tables/5_3_True.pdf"; "./tables/5_3_True.csv";
   "./tables/5_3_False.pdf"; "./tables/5_3_False.csv";
   "./tables/5_4_True.pdf"; "./tables/5_4_True.csv";
   "./tables/5_4_False.pdf"; "./tables/5_4_False.csv";
   "./tables/5_5_True.pdf"; "./tables/5_5_True.csv";
   "./tables/5_5_False.pdf"; "./tables/5_5_False.csv";
   "./tables/5_6_True.pdf"; "./tables/5_6_True.csv";
   "./tables/5_6_False.pdf"; "./tables/5_6_False.csv";
   "./tables/5_7_True.pdf"; "./tables/5_7_True.csv";
   "./tables/5_7_False.pdf"; "./tables/5_7_False.csv";
   "./tables/6_2_True.pdf"; "./tables/6_2_True.csv";
   "./tables/6_2_False.pdf"; "./tables/6_2_False.csv";
   "./tables/6_3_True.pdf"; "./tables/6_3_True.csv";
   "./tables/6_3_False.pdf"; "./tables/6_3_False.csv";
   "./tables/6_4_True.pdf"; "./tables/6_4_True.csv";
   "./tables/6_4_False.pdf"; "./tables/6_4_False.csv";
   "./tables/6_5_True.pdf"; "./tables/6_5_True.csv";
   "./tables/6_5_False.pdf"; "./tables/6_5_False.csv";
   "./tables/6_6_True.pdf"; "./tables/6_6_True.csv";
   "./tables/6_6_False.pdf"; "./tables/6_6_False.csv";
   "./tables/6_7_True.pdf"; "./tables/6_7_True.csv";
   "./tables/6_7_False.pdf"; "./tables/6_7_False.csv";
   "./tables/7_2_True.pdf"; "./tables/7_2_True.csv";
   "./tables/7_2_False.pdf"; "./tables/7_2_False.csv";
   "./tables/7_3_True.pdf"; "./tables/7_3_True.csv";
   "./tables/7_3_False.pdf"; "./tables/7_3_False.csv";
   "./tables/7_4_True.pdf"; "./tables/7_4_True.csv";
   "./tables/7_4_False.pdf"; "./tables/7_4_False.csv";
   "./tables/7_5_True.pdf"; "./tables/7_5_True.csv";
   "./tables/7_5_False.pdf"; "./tables/7_5_False.csv";
   "./tables/7_6_True.pdf"; "./tables/7_6_True.csv";
   "./tables/7_6_False.pdf"; "./tables/7_6_False.csv";
   "./tables/7_7_True.pdf"; "./tables/7_7_True.csv";
   "./tables/7_7_False.pdf"; "./tables/7_7_False.csv";
   "./tables/8_2_True.pdf"; "./tables/8_2_True.csv";
   "./tables/8_2_False.pdf"; "./tables/8_2_False.csv";
   "./tables/8_3_True.pdf"; "./tables/8_3_True.csv";
   "./tables/8_3_False.pdf"; "./tables/8_3_False.csv";
   "./tables/8_4_True.pdf"; "./tables/8_4_True.csv";
   "./tables/8_4_False.pdf"; "./tables/8_4_False.csv";
   "./tables/8_5_True.pdf"; "./tables/8_5_True.csv";
   "./tables/8_5_False.pdf"; "./tables/8_5_False.csv";
   "./tables/8_6_True.pdf"; "./tables/8_6_True.csv";
   "./tables/8_6_False.pdf"; "./tables/8_6_False.csv";
   "./tables/8_7_True.pdf"; "./tables/8_7_True.csv";
   "./tables/8_7_False.pdf"; "./tables/8_7_False.csv";
   "./tables/9_2_True.pdf"; "./tables/9_2_True.csv";
   "./tables/9_2_False.pdf"; "./tables/9_2_False.csv";
   "./tables/9_3_True.pdf"; "./tables/9_3_True.csv";
   "./tables/9_3_False.pdf"; "./tables/9_3_False.csv";
   "./tables/9_4_True.pdf"; "./tables/9_4_True.csv";
   "./tables/9_4_False.pdf"; "./tables/9_4_False.csv";
   "./tables/9_5_True.pdf"; "./tables/9_5_True.csv";
   "./tables/9_5_False.pdf"; "./tables/9_5_False.csv";
   "./tables/9_6_True.pdf"; "./tables/9_6_True.csv";
   "./tables/9_6_False.pdf"; "./tables/9_6_False.csv";
   "./tables/9_7_True.pdf"; "./tables/9_7_True.csv";
   "./tables/9_7_False.pdf"; "./tables/9_7_False.csv"
  ].

(* ================================================================= *)
(** ** Vocabulary for the draws of a run *)

(** [n] successive results of a stepping function and the state after
    them. *)
Fixpoint unfold_n {S A : Type} (step : S -> A * S) (n : nat) (s : S)
  : list A * S :=
  match n with
  | O => ([], s)
  | Datatypes.S k =>
      let (a, s1) := step s in
      let (l, s2) := unfold_n step k s1 in
      (a :: l, s2)
  end.

Section Draws.

Context {E : Externals}.

Definition with_rng (w : World E) (g : Rng) : World E :=
  mkWorld g (clock w) (dirs w) (written w).

Definition with_clock (w : World E) (c : Clock) : World E :=
  mkWorld (rng w) c (dirs w) (written w).

(** A timestamp cell: the clock read and rendered as [str(int(t))]. *)
Definition timestamp (c : Clock) : string * Clock :=
  let (t, c') := time_time c in (Py.str (Py.int_of_float t), c').

End Draws.

(* ================================================================= *)
(** ** Vocabulary for the effects of the sweep *)

(** The directories after [if not os.path.exists(...): os.makedirs(...)]. *)
Definition ensure_directory (ds : list string) : list string :=
  if existsb (String.eqb DIRECTORY_NAME) ds then ds
  else (ds ++ [DIRECTORY_NAME])%list.

(** The states a loop goes through: one step per element, in order. *)
Fixpoint chain {X W : Type} (step : X -> W -> W -> Prop) (xs : list X)
  (w w' : W) : Prop :=
  match xs with
  | [] => w' = w
  | x :: xs' => exists w1, step x w w1 /\ chain step xs' w1 w'
  end.

Section Effects.

Context {E : Externals}.

(** The state with more files in the log. *)
Definition logged (w : World E) (entries : list (string * content))
  : World E :=
  mkWorld (rng w) (clock w) (dirs w) (written w ++ entries)%list.

(** The state after [if not os.path.exists(...): os.makedirs(...)]. *)
Definition directory_ensured (w : World E) : World E :=
  mkWorld (rng w) (clock w) (ensure_directory (dirs w)) (written w).

(** What one combination hands to the compiler, starting in [w]: the
    table is the one [generate_data] returns in [w], and the document the
    one [generate_tex_code] returns for that table once the directory
    has been made sure of; [w3] is the state the compiler is called in. *)
Definition prepared (r_c c_c : Z) (filling : bool) (w : World E)
  (table_data : list (list string)) (tex_code : string) (w3 : World E)
  : Prop :=
  exists w1,
    generate_data r_c c_c filling w = (Return table_data, w1)
    /\ generate_tex_code table_data (get_table_title c_c "title")
         (directory_ensured w1)
       = (Return tex_code, w3).

(** The two files of a combination: the compiled document and, after it,
    the CSV text of the table under its titles. *)
Definition combination_files (r_c c_c : Z) (filling : bool)
  (table_data : list (list string)) (pdf : Pdf)
  : list (string * content) :=
  [((file_path_of r_c c_c filling ++ ".pdf")%string, PdfData pdf);
   ((file_path_of r_c c_c filling ++ ".csv")%string,
    TextData (csv_text (get_table_title c_c "title") table_data))].

(** A combination whose document compiles: its two files are added to
    the log of the state the compiler was called in. *)
Definition combination_succeeds (p : Z * Z * bool) (w w' : World E)
  : Prop :=
  let '(r_c, c_c, filling) := p in
  exists table_data tex_code pdf w3,
    prepared r_c c_c filling w table_data tex_code w3
    /\ build_pdf tex_code = Some pdf
    /\ w' = logged w3 (combination_files r_c c_c filling table_data pdf).

(** A combination whose document the compiler rejects; [w'] is the state
    the compiler was called in. *)
Definition combination_fails (p : Z * Z * bool) (w w' : World E) : Prop :=
  let '(r_c, c_c, filling) := p in
  exists table_data tex_code,
    prepared r_c c_c filling w table_data tex_code w'
    /\ build_pdf tex_code = None.




End Effects.

(** Collaborators as in [demo], with a compiler that always fails. *)
Definition demo_broken : Externals := {|
  Rng := nat;
  Clock := N;
  Pdf := string;
  lorem_sentence := fun n => ("Lorem " ++ Py.str (Z.of_nat n) ++ ".", S n);
  lorem_paragraph := fun n => ("Ipsum " ++ Py.str (Z.of_nat n) ++ ".", S n);
  time_time := fun c => (Qmake (2 * Z.of_N c + 1) 2, N.succ c);
  build_pdf := fun tex => None
|}.

Definition demo_broken_world : World demo_broken :=
  @mkWorld demo_broken 0%nat 1700000000%N [] [].

(** Whether a text holds a line feed or a carriage return. *)
Definition has_line_break (s : string) : bool :=
  Py.mem_char Csv.LF s || Py.mem_char Csv.CR s.

(* ================================================================= *)
(** * Properties *)

Unset Implicit Arguments.

(** ** Strings *)

Lemma append_assoc (a b c : string) : (a ++ b) ++ c = a ++ (b ++ c).
Proof. induction a as [|x a IH]; simpl; [reflexivity | now rewrite IH]. Qed.

Lemma append_nil_r (a : string) : a ++ "" = a.
Proof. induction a as [|x a IH]; simpl; [reflexivity | now rewrite IH]. Qed.

Lemma length_append (a b : string) :
  String.length (a ++ b) = (String.length a + String.length b)%nat.
Proof. induction a as [|x a IH]; simpl; [reflexivity | now rewrite IH]. Qed.

(** ** Integers and their numerals *)

Lemma range2_length (lo hi : Z) :
  List.length (Py.range2 lo hi) = Z.to_nat (hi - lo).
Proof. unfold Py.range2. now rewrite length_map, length_seq. Qed.

Lemma range_length (n : Z) : List.length (Py.range n) = Z.to_nat n.
Proof. unfold Py.range. rewrite range2_length. f_equal. lia. Qed.

Lemma range_nth (n i : Z) :
  0 <= i < n -> nth_error (Py.range n) (Z.to_nat i) = Some i.
Proof.
  intros Hi. unfold Py.range, Py.range2.
  rewrite nth_error_map, nth_error_seq.
  destruct (Nat.ltb_spec (Z.to_nat i) (Z.to_nat (n - 0))) as [_|Hge]; [|lia].
  simpl. f_equal. lia.
Qed.

Lemma to_int_proper (z : Z) :
  Z.to_int z <> Decimal.Pos Decimal.Nil /\ Z.to_int z <> Decimal.Neg Decimal.Nil.
Proof.
  destruct z as [|p|p]; simpl; split; try discriminate;
    intros [= H]; exact (DecimalPos.Unsigned.to_uint_nonnil p H).
Qed.

(** [int(str(z)) = z]. *)
Lemma parse_int_str (z : Z) : Py.parse_int (Py.str z) = Some z.
Proof.
  unfold Py.parse_int, Py.str.
  destruct (to_int_proper z) as [Hp Hn].
  rewrite (NilZero.isi (Z.to_int z) Hp Hn). simpl. now rewrite DecimalZ.of_to.
Qed.

Lemma int_of_float_nonneg (t : Q) : (0 <= t)%Q -> 0 <= Py.int_of_float t.
Proof.
  unfold Qle, Py.int_of_float. simpl. intros H.
  apply Z.quot_pos; lia.
Qed.

(** ** Running the loops *)

Section Loops.

Context {E : Externals}.

Lemma bind_return {A B : Type} (m : M E A) (k : A -> M E B) w a w' :
  m w = (Return a, w') -> bind m k w = k a w'.
Proof. unfold bind. now intros ->. Qed.

Lemma bind_raise {A B : Type} (m : M E A) (k : A -> M E B) w e w' :
  m w = (Raise e, w') -> bind m k w = (Raise e, w').
Proof. unfold bind. now intros ->. Qed.

(** A loop that appends one produced value per element returns the values
    in order, each with the property the producer guarantees; if the
    producer writes no file, neither does the loop. *)
Lemma for_in_collect {X V : Type} (P : V -> Prop) (f : X -> M E V) :
  (forall x w, exists v w',
     f x w = (Return v, w') /\ P v /\ written w' = written w) ->
  forall xs acc w,
  exists vs w',
    for_in xs acc (fun acc x => bind (f x) (fun v => ret (acc ++ [v])%list)) w
      = (Return (acc ++ vs)%list, w')
    /\ List.length vs = List.length xs /\ Forall P vs
    /\ written w' = written w.
Proof.
  intros Hf xs. induction xs as [|x xs IH]; intros acc w; simpl.
  - exists [], w. rewrite app_nil_r. repeat split. constructor.
  - destruct (Hf x w) as (v & w1 & Hv & HP & Hw1).
    destruct (IH (acc ++ [v])%list w1) as (vs & w2 & Hrun & Hlen & Hall & Hw2).
    exists (v :: vs), w2.
    erewrite bind_return; [|erewrite bind_return; [reflexivity | exact Hv]].
    rewrite Hrun, <- app_assoc. simpl. repeat split.
    + now rewrite Hlen.
    + now constructor.
    + congruence.
Qed.

Lemma cell_sentence_returns (w : World E) :
  exists v w', sentence w = (Return v, w') /\ True /\ written w' = written w.
Proof.
  unfold sentence. destruct (lorem_sentence (rng w)) as [s g]. eauto.
Qed.

Lemma cell_filling_returns (filling : bool) (w : World E) :
  exists v w',
    (if filling then sentence
     else bind now (fun t => ret (Py.str (Py.int_of_float t)))) w
    = (Return v, w') /\ True /\ written w' = written w.
Proof.
  destruct filling; [apply cell_sentence_returns|].
  unfold bind, now, ret. destruct (time_time (clock w)) as [t c]. eauto.
Qed.

End Loops.

(** ** The data generator *)

Section Generator.

Context {E : Externals}.

Lemma generate_data_shape (P : string -> Prop) (filling : bool) :
  (forall w : World E, exists v w',
     (if filling then sentence
      else bind now (fun t => ret (Py.str (Py.int_of_float t)))) w
     = (Return v, w') /\ P v /\ written w' = written w) ->
  forall rows cols w,
  exists table w',
    generate_data rows cols filling w = (Return table, w')
    /\ List.length table = Z.to_nat rows
    /\ Forall (fun row => List.length row = Z.to_nat cols /\ Forall P row)
              table
    /\ written w' = written w.
Proof.
  intros Hcell rows cols w. unfold generate_data.
  destruct (for_in_collect
              (fun row => List.length row = Z.to_nat cols /\ Forall P row)
              (fun _ : Z =>
                 for_in (Py.range cols) []
                   (fun cells_in_row (_ : Z) =>
                      bind (if filling then sentence
                            else bind now (fun t =>
                                   ret (Py.str (Py.int_of_float t))))
                           (fun cell_filling =>
                              ret (cells_in_row ++ [cell_filling])%list))))
    with (xs := Py.range rows) (acc := @nil (list string)) (w := w)
    as (table & w' & Hrun & Hlen & Hall & Hw).
  - intros _ w0.
    destruct (for_in_collect P (fun _ : Z =>
                if filling then sentence
                else bind now (fun t => ret (Py.str (Py.int_of_float t)))))
      with (xs := Py.range cols) (acc := @nil string) (w := w0)
      as (row & w1 & Hrow & Hrlen & Hrall & Hw1).
    + intros _ w2. apply Hcell.
    + exists row, w1. rewrite range_length in Hrlen. auto.
  - exists table, w'. rewrite range_length in Hlen. auto.
Qed.

(** C1. For non-negative counts [generate_data] returns a table of exactly
    [row_count] rows, each a list of exactly [column_count] cells, in either
    filling mode. *)
Theorem generate_data_dimensions (row_count column_count : Z)
  (filling_is_sentences : bool) (w : World E) :
  0 <= row_count -> 0 <= column_count ->
  exists table w',
    generate_data row_count column_count filling_is_sentences w
      = (Return table, w')
    /\ Py.len table = row_count
    /\ Forall (fun row => Py.len row = column_count) table.
Proof.
  intros Hr Hc.
  destruct (generate_data_shape (fun _ => True) filling_is_sentences
              (cell_filling_returns filling_is_sentences)
              row_count column_count w)
    as (table & w' & Hrun & Hlen & Hall & _).
  exists table, w'. unfold Py.len. repeat split; [assumption | lia |].
  eapply Forall_impl; [|exact Hall]. simpl. intros row [Hrow _]. lia.
Qed.

Lemma all_rows_empty (table : list (list string)) :
  Forall (fun row => List.length row = 0%nat) table ->
  table = repeat [] (List.length table).
Proof.
  induction 1 as [|row table Hrow _ IH]; simpl; [reflexivity|].
  destruct row; [|discriminate]. now rewrite <- IH.
Qed.

(** C7, as the code has it.  [generate_data] returns for all non-negative
    counts; with zero rows the table is empty, and with zero columns it has
    [number_of_rows] rows, each of them empty. *)
Theorem generate_data_zero_counts (number_of_rows number_of_columns : Z)
  (filling_is_sentences : bool) (w : World E) :
  0 <= number_of_rows -> 0 <= number_of_columns ->
  exists table w',
    generate_data number_of_rows number_of_columns filling_is_sentences w
      = (Return table, w')
    /\ (number_of_rows = 0 -> table = [])
    /\ (number_of_columns = 0 ->
        table = repeat [] (Z.to_nat number_of_rows)).
Proof.
  intros Hr Hc.
  destruct (generate_data_shape (fun _ => True) filling_is_sentences
              (cell_filling_returns filling_is_sentences)
              number_of_rows number_of_columns w)
    as (table & w' & Hrun & Hlen & Hall & _).
  exists table, w'. repeat split; [assumption | |].
  - intros ->. now destruct table.
  - intros ->. rewrite <- Hlen. apply all_rows_empty.
    eapply Forall_impl; [|exact Hall]. simpl. now intros row [Hrow _].
Qed.

(** C9. In timestamp mode every cell is the decimal numeral of a clock
    reading truncated to whole seconds; when the clock never reads a
    negative time the cell parses as that non-negative integer. *)
Theorem generate_data_timestamps (number_of_rows number_of_columns : Z)
  (w : World E) :
  (forall c, (0 <= fst (time_time c))%Q) ->
  exists table w',
    generate_data number_of_rows number_of_columns false w = (Return table, w')
    /\ Forall (Forall (fun cell =>
         exists c n,
           n = Py.int_of_float (fst (time_time c))
           /\ 0 <= n /\ cell = Py.str n /\ Py.parse_int cell = Some n))
       table.
Proof.
  intros Hclock.
  destruct (generate_data_shape
              (fun cell => exists c n,
                 n = Py.int_of_float (fst (time_time c))
                 /\ 0 <= n /\ cell = Py.str n /\ Py.parse_int cell = Some n)
              false) with (rows := number_of_rows) (cols := number_of_columns)
                          (w := w)
    as (table & w' & Hrun & _ & Hall & _).
  - intros w0. unfold bind, now, ret.
    specialize (Hclock (clock w0)).
    destruct (time_time (clock w0)) as [t c'] eqn:Ht.
    eexists _, _. split; [reflexivity|]. split; [|reflexivity].
    exists (clock w0), (Py.int_of_float t). rewrite Ht. simpl in *.
    repeat split; [now apply int_of_float_nonneg | apply parse_int_str].
  - exists table, w'. split; [assumption|].
    eapply Forall_impl; [|exact Hall]. simpl. now intros row [_ Hrow].
Qed.

(** The amended C5: [get_text] draws one sentence and returns
    [number_of_sentences] copies of it, without a separator. *)
Theorem get_text_repeats_one_sentence (number_of_sentences : Z)
  (w : World E) :
  let s := fst (lorem_sentence (rng w)) in
  get_text number_of_sentences w
  = (Return (Py.repeat_str s (Z.to_nat number_of_sentences)),
     mkWorld (snd (lorem_sentence (rng w))) (clock w) (dirs w) (written w)).
Proof.
  unfold get_text, bind, sentence, ret, Py.mul.
  now destruct (lorem_sentence (rng w)).
Qed.

End Generator.

(** C1 on the demonstration run: three rows of two cells. *)
Lemma generate_data_dimensions_witness :
  exists table w',
    generate_data 3 2 true demo_world = (Return table, w')
    /\ Py.len table = 3
    /\ Forall (fun row => Py.len row = 2) table.
Proof.
  apply (@generate_data_dimensions demo 3 2 true demo_world); lia.
Defined.

Lemma generate_data_zero_counts_witness :
  exists table w',
    generate_data 4 0 false demo_world = (Return table, w')
    /\ (4 = 0 -> table = [])
    /\ (0 = 0 -> table = repeat [] (Z.to_nat 4)).
Proof.
  apply (@generate_data_zero_counts demo 4 0 false demo_world); lia.
Defined.

(** C7 as stated fails: two rows and no columns give two empty rows, not
    the empty table. *)
Lemma generate_data_zero_columns_keeps_rows :
  fst (generate_data 2 0 true demo_world) = Return [[]; []]
  /\ fst (generate_data 2 0 true demo_world) <> Return [].
Proof. split; [reflexivity | discriminate]. Qed.

Lemma demo_clock_nonneg (c : N) : (0 <= fst (@time_time demo c))%Q.
Proof.
  unfold Qle. change (0 * 2 <= (2 * Z.of_N c + 1) * 1). lia.
Qed.

Lemma generate_data_timestamps_witness :
  exists table w',
    generate_data 2 2 false demo_world = (Return table, w')
    /\ Forall (Forall (fun cell =>
         exists c n,
           n = Py.int_of_float (fst (@time_time demo c))
           /\ 0 <= n /\ cell = Py.str n /\ Py.parse_int cell = Some n))
       table.
Proof.
  apply (@generate_data_timestamps demo 2 2 demo_world demo_clock_nonneg).
Defined.

(** C5 as stated fails: one sentence is drawn and repeated, where the
    claim has as many draws as sentences. *)
Lemma get_text_not_independent :
  fst (get_text 2 demo_world) = Return "Lorem 0.Lorem 0."
  /\ fst (get_text_independent 2 demo_world) = Return "Lorem 0.Lorem 1."
  /\ fst (get_text 2 demo_world) <> fst (get_text_independent 2 demo_world).
Proof. repeat split; discriminate. Qed.

(** ** Titles *)

(** C3. [get_table_title n] has [n] entries, the [i]-th being [title]
    followed by the numeral of [i]; for three columns it is [title0],
    [title1], [title2].  It is a pure function of the column count: neither
    the filling mode nor the state of the run is among its arguments. *)
Theorem get_table_title_entries (n : Z) :
  0 <= n ->
  Py.len (get_table_title n "title") = n
  /\ (forall i, 0 <= i < n ->
        nth_error (get_table_title n "title") (Z.to_nat i)
        = Some ("title" ++ Py.str i))
  /\ get_table_title 3 "title" = ["title0"; "title1"; "title2"].
Proof.
  intros Hn. unfold get_table_title, Py.len. repeat split.
  - rewrite length_map, range_length. lia.
  - intros i Hi. rewrite nth_error_map, (range_nth n i Hi). reflexivity.
Qed.

Lemma get_table_title_entries_witness :
  0 <= 3
  /\ Py.len (get_table_title 3 "title") = 3
  /\ (forall i, 0 <= i < 3 ->
        nth_error (get_table_title 3 "title") (Z.to_nat i)
        = Some ("title" ++ Py.str i))
  /\ get_table_title 3 "title" = ["title0"; "title1"; "title2"].
Proof.
  split; [lia | apply (@get_table_title_entries 3); lia].
Defined.

(** ** Substitution of placeholders *)

Lemma mem_char_append (c : ascii) (a b : string) :
  Py.mem_char c (a ++ b) = Py.mem_char c a || Py.mem_char c b.
Proof.
  induction a as [|x a IH]; simpl; [reflexivity|].
  now rewrite IH, orb_assoc.
Qed.

Lemma prefix_length (old s : string) :
  String.prefix old s = true -> (String.length old <= String.length s)%nat.
Proof.
  revert s. induction old as [|x old IH]; intros [|y s]; simpl; intros H.
  - lia.
  - lia.
  - discriminate.
  - destruct (ascii_dec x y); [|discriminate].
    apply IH in H. lia.
Qed.

(** A character that does not occur in [old] cannot lie inside a match. *)
Lemma prefix_barrier (old a b : string) (c : ascii) :
  Py.mem_char c old = false ->
  String.prefix old (a ++ String c b) = String.prefix old a.
Proof.
  revert a. induction old as [|x old IH]; intros a Hc.
  - now destruct a.
  - simpl in Hc. apply orb_false_iff in Hc as [Hx Hold].
    destruct a as [|y a]; simpl.
    + destruct (ascii_dec x c) as [->|]; [|reflexivity].
      now rewrite Ascii.eqb_refl in Hx.
    + destruct (ascii_dec x y); [now apply IH | reflexivity].
Qed.

Lemma replace_from_barrier (old new b : string) (c : ascii) :
  old <> "" -> Py.mem_char c old = false ->
  forall a k, (k <= String.length a)%nat ->
  Py.replace_from old new k (a ++ String c b)
  = Py.replace_from old new k a ++ String c (Py.replace_from old new 0 b).
Proof.
  intros Hne Hc a. induction a as [|y a IH]; intros k Hk.
  - simpl in Hk. assert (k = 0%nat) as -> by lia.
    destruct old as [|x old]; [easy|].
    simpl in Hc. apply orb_false_iff in Hc as [Hx _].
    cbn [append Py.replace_from String.prefix].
    destruct (ascii_dec x c) as [->|]; [|reflexivity].
    now rewrite Ascii.eqb_refl in Hx.
  - destruct k as [|k].
    + change (String y a ++ String c b) with (String y (a ++ String c b)).
      cbn [Py.replace_from].
      change (String y (a ++ String c b)) with (String y a ++ String c b).
      rewrite (prefix_barrier old (String y a) b c Hc).
      destruct (String.prefix old (String y a)) eqn:Hp.
      * apply prefix_length in Hp. simpl in Hp.
        rewrite IH by lia. now rewrite append_assoc.
      * rewrite IH by lia. reflexivity.
    + simpl in *. apply IH. lia.
Qed.

(** [replace] works on the two sides of such a character separately. *)
Lemma replace_barrier (old new a b : string) (c : ascii) :
  old <> "" -> Py.mem_char c old = false ->
  Py.replace old new (a ++ String c b)
  = Py.replace old new a ++ String c (Py.replace old new b).
Proof.
  intros Hne Hc. unfold Py.replace. destruct old as [|x old]; [easy|].
  apply replace_from_barrier; [easy | assumption | lia].
Qed.

(** A text without the first character of [old] is left as it is. *)
Lemma replace_absent (x : ascii) (old new s : string) :
  Py.mem_char x s = false -> Py.replace (String x old) new s = s.
Proof.
  unfold Py.replace. induction s as [|y s IH]; intros Hx; [reflexivity|].
  simpl in Hx. apply orb_false_iff in Hx as [Hxy Hs].
  cbn [Py.replace_from String.prefix].
  destruct (ascii_dec x y) as [->|].
  - now rewrite Ascii.eqb_refl in Hxy.
  - now rewrite IH.
Qed.

Lemma placeholder_inv (p : string) :
  is_placeholder p = true ->
  (exists p', p = String "_" p')
  /\ Py.mem_char " " p = false /\ Py.mem_char (ascii_of_nat 10) p = false.
Proof.
  unfold is_placeholder. intros H.
  apply andb_true_iff in H as [H Hnl]. apply andb_true_iff in H as [Hp Hsp].
  apply negb_true_iff in Hnl, Hsp. repeat split; try assumption.
  destruct p as [|x p]; [discriminate|]. revert Hp. cbn [String.prefix].
  destruct (ascii_dec "_" x) as [<-|]; [now exists p | discriminate].
Qed.

Lemma placeholder_nonempty (p : string) : is_placeholder p = true -> p <> "".
Proof. now intros H ->. Qed.

Lemma replace_placeholder_absent (p v s : string) :
  is_placeholder p = true -> Py.mem_char "_" s = false ->
  Py.replace p v s = s.
Proof.
  intros Hp Hs. destruct (placeholder_inv p Hp) as [[p' ->] _].
  now apply replace_absent.
Qed.

Lemma replace_newline (p v a b : string) :
  is_placeholder p = true ->
  Py.replace p v (a ++ nl ++ b) = Py.replace p v a ++ nl ++ Py.replace p v b.
Proof.
  intros Hp. destruct (placeholder_inv p Hp) as (_ & _ & Hnl).
  apply replace_barrier; [now apply placeholder_nonempty | exact Hnl].
Qed.

Lemma replace_row_terminator (p v line rest : string) :
  is_placeholder p = true ->
  Py.replace p v (line ++ ROW_TERMINATOR ++ rest)
  = Py.replace p v line ++ ROW_TERMINATOR ++ Py.replace p v rest.
Proof.
  intros Hp. destruct (placeholder_inv p Hp) as (_ & Hsp & Hnl).
  pose proof (placeholder_nonempty p Hp) as Hne.
  change (ROW_TERMINATOR ++ rest)
    with (String " " ("\\ \hline" ++ String (ascii_of_nat 10) rest)).
  rewrite (replace_barrier _ _ _ _ _ Hne Hsp).
  rewrite (replace_barrier _ _ _ _ _ Hne Hnl).
  rewrite (replace_placeholder_absent p v "\\ \hline" Hp) by reflexivity.
  reflexivity.
Qed.

Lemma replace_terminated (p v : string) (lines : list string) (rest : string) :
  is_placeholder p = true ->
  Py.replace p v (terminated lines ++ rest)
  = terminated (map (Py.replace p v) lines) ++ Py.replace p v rest.
Proof.
  intros Hp. induction lines as [|line lines IH]; [reflexivity|].
  cbn [terminated map]. rewrite !append_assoc.
  rewrite (replace_row_terminator _ _ _ _ Hp), IH. reflexivity.
Qed.

(** Joining with the terminator and closing with it once more ends every
    line with the terminator. *)
Lemma join_terminated (line : string) (lines : list string) :
  Py.join ROW_TERMINATOR (line :: lines) ++ ROW_TERMINATOR
  = terminated (line :: lines).
Proof.
  revert line. induction lines as [|l lines IH]; intros line.
  - cbn [Py.join String.concat terminated]. now rewrite append_nil_r.
  - change (Py.join ROW_TERMINATOR (line :: l :: lines))
      with (line ++ ROW_TERMINATOR ++ Py.join ROW_TERMINATOR (l :: lines)).
    rewrite !append_assoc, IH. reflexivity.
Qed.

(** ** The rendered document *)

Lemma fold_left_append_map {A B : Type} (f : A -> B) (l : list A)
  (acc : list B) :
  fold_left (fun table row => (table ++ [f row])%list) l acc
  = (acc ++ map f l)%list.
Proof.
  revert acc. induction l as [|x l IH]; intros acc; simpl.
  - now rewrite app_nil_r.
  - rewrite IH, <- app_assoc. reflexivity.
Qed.

Lemma rows_pass (rows : string) :
  Py.replace TABLE_ROWS_LIST rows TEX_TABLE_PATTERN
  = table_text "\begin{tabular}{_TABLE_SCHEMA}" "\hline"
               "_TABLE_TITLE\\ \hline" (rows ++ ROW_TERMINATOR)
               ("\end{tabular}" ++ nl).
Proof.
  unfold table_text. rewrite !append_assoc. reflexivity.
Qed.

Lemma rows_body (table_data : list (list string)) :
  Py.join ROW_TERMINATOR (map (Py.join CELL_SEPARATOR) table_data)
    ++ ROW_TERMINATOR
  = terminated (row_lines table_data).
Proof.
  destruct table_data as [|row table_data]; [reflexivity|].
  apply join_terminated.
Qed.

Lemma table_text_append (x1 x2 x3 body e rest : string) :
  table_text x1 x2 x3 body e ++ rest = table_text x1 x2 x3 body (e ++ rest).
Proof. unfold table_text. now rewrite !append_assoc. Qed.

Lemma replace_table_text (p v x1 x2 x3 e : string) (lines : list string) :
  is_placeholder p = true ->
  Py.replace p v (table_text x1 x2 x3 (terminated lines) e)
  = table_text (Py.replace p v x1) (Py.replace p v x2) (Py.replace p v x3)
               (terminated (map (Py.replace p v) lines)) (Py.replace p v e).
Proof.
  intros Hp. unfold table_text.
  rewrite !(replace_newline p v _ _ Hp).
  now rewrite (replace_terminated p v lines e Hp).
Qed.

(** Numerals and schemas hold no underscore. *)
Lemma string_of_uint_no_underscore (d : Decimal.uint) :
  Py.mem_char "_" (NilEmpty.string_of_uint d) = false.
Proof. induction d; simpl; auto. Qed.

Lemma str_no_underscore (z : Z) : Py.mem_char "_" (Py.str z) = false.
Proof.
  unfold Py.str.
  destruct (Z.to_int z) as [d|d]; simpl;
    destruct d; simpl; auto using string_of_uint_no_underscore.
Qed.

Lemma repeat_str_no_underscore (s : string) (n : nat) :
  Py.mem_char "_" s = false -> Py.mem_char "_" (Py.repeat_str s n) = false.
Proof.
  intros Hs. induction n as [|n IH]; simpl; [reflexivity|].
  now rewrite mem_char_append, Hs, IH.
Qed.

Lemma schema_no_underscore (n : Z) : Py.mem_char "_" (schema_for n) = false.
Proof.
  unfold schema_for, get_schema, Py.mul.
  rewrite mem_char_append, repeat_str_no_underscore; [reflexivity|].
  cbn [append Py.mem_char]. rewrite mem_char_append, str_no_underscore.
  reflexivity.
Qed.

(** [int(15 / n)] is the floor of the quotient for a positive [n]. *)
Lemma cell_width_positive (width n : Z) :
  0 <= width -> 1 <= n -> cell_width width n = Some (width / n).
Proof.
  intros Hw Hn. unfold cell_width, Py.true_div.
  destruct (Z.eqb_spec n 0) as [->|_]; [lia|].
  destruct n as [|p|p]; try lia.
  cbn [option_map]. unfold Py.int_of_float, Qdiv, Qinv, Qmult, inject_Z.
  cbn [Qnum Qden]. f_equal.
  rewrite Z.mul_1_r, Pos.mul_1_l. apply Z.quot_div_nonneg; lia.
Qed.

Lemma cell_width_zero (width : Z) : cell_width width 0 = None.
Proof. reflexivity. Qed.

Section Renderer.

Context {E : Externals}.

(** The table text after the three substitutions into the table pattern. *)
Lemma tex_table_shape (schema title_line : string)
  (table_data : list (list string)) :
  Py.mem_char "_" schema = false ->
  Py.replace TABLE_TITLE title_line
    (Py.replace TABLE_SCHEMA schema
       (Py.replace TABLE_ROWS_LIST
          (Py.join ROW_TERMINATOR (map (Py.join CELL_SEPARATOR) table_data))
          TEX_TABLE_PATTERN))
  = table_text ("\begin{tabular}{" ++ schema ++ "}") "\hline"
      (title_line ++ "\\ \hline")
      (terminated
         (map (fun line =>
                 Py.replace TABLE_TITLE title_line
                   (Py.replace TABLE_SCHEMA schema line))
              (row_lines table_data)))
      ("\end{tabular}" ++ nl).
Proof.
  intros Hschema.
  rewrite rows_pass, rows_body.
  rewrite (replace_table_text TABLE_SCHEMA schema) by reflexivity.
  rewrite (replace_table_text TABLE_TITLE title_line) by reflexivity.
  rewrite map_map.
  change (Py.replace TABLE_SCHEMA schema "\begin{tabular}{_TABLE_SCHEMA}")
    with ("\begin{tabular}{" ++ schema ++ "}").
  rewrite (replace_placeholder_absent TABLE_TITLE title_line
             ("\begin{tabular}{" ++ schema ++ "}")); [reflexivity.. |].
  cbn [append Py.mem_char]. rewrite mem_char_append, Hschema. reflexivity.
Qed.

Lemma before_pass (text_before : string) :
  Py.replace TEXT_BEFORE_TABLE text_before TEX_DOCUMENT_PATTERN
  = DOCUMENT_HEAD ++ nl ++ text_before ++ nl
    ++ (nl ++ TABLE ++ nl ++ TEXT_AFTER_TABLE ++ nl ++ "\end{document}").
Proof. unfold DOCUMENT_HEAD. rewrite !append_assoc. reflexivity. Qed.

(** The document after the three substitutions into the document
    pattern, for a table text of the shape above. *)
Lemma tex_document_shape (text_before text_after x1 x2 x3 : string)
  (lines : list string) :
  let tex_table :=
    table_text x1 x2 x3 (terminated lines) ("\end{tabular}" ++ nl) in
  Py.replace TEXT_AFTER_TABLE text_after
    (Py.replace TABLE tex_table
       (Py.replace TEXT_BEFORE_TABLE text_before TEX_DOCUMENT_PATTERN))
  = DOCUMENT_HEAD ++ nl
    ++ Py.replace TEXT_AFTER_TABLE text_after
         (Py.replace TABLE tex_table text_before) ++ nl
    ++ nl
    ++ table_text
         (Py.replace TEXT_AFTER_TABLE text_after x1)
         (Py.replace TEXT_AFTER_TABLE text_after x2)
         (Py.replace TEXT_AFTER_TABLE text_after x3)
         (terminated (map (Py.replace TEXT_AFTER_TABLE text_after) lines))
         ("\end{tabular}" ++ nl ++ nl ++ text_after ++ nl ++ "\end{document}").
Proof.
  intros tex_table. rewrite before_pass.
  rewrite !(replace_newline TABLE tex_table _ _ eq_refl).
  rewrite (replace_placeholder_absent TABLE tex_table DOCUMENT_HEAD)
    by reflexivity.
  change (Py.replace TABLE tex_table
            (nl ++ TABLE ++ nl ++ TEXT_AFTER_TABLE ++ nl ++ "\end{document}"))
    with (nl ++ tex_table
             ++ (nl ++ TEXT_AFTER_TABLE ++ nl ++ "\end{document}")).
  rewrite !(replace_newline TEXT_AFTER_TABLE text_after _ _ eq_refl).
  rewrite (replace_placeholder_absent TEXT_AFTER_TABLE text_after
             DOCUMENT_HEAD) by reflexivity.
  change (nl ++ tex_table ++ nl ++ TEXT_AFTER_TABLE ++ nl ++ "\end{document}")
    with ("" ++ nl ++ tex_table
             ++ (nl ++ TEXT_AFTER_TABLE ++ nl ++ "\end{document}")).
  rewrite (replace_newline TEXT_AFTER_TABLE text_after "" _ eq_refl).
  unfold tex_table at 2. rewrite table_text_append.
  rewrite (replace_table_text TEXT_AFTER_TABLE text_after) by reflexivity.
  reflexivity.
Qed.

End Renderer.

Section Rendering.

Context {E : Externals}.

(** The run of [generate_tex_code]: two paragraphs are drawn, then the
    width is computed, and only then can the division raise. *)
Lemma generate_tex_code_run (table_data : list (list string))
  (table_title_data : list string) (w : World E) :
  let text_before := fst (lorem_paragraph (rng w)) in
  let g1 := snd (lorem_paragraph (rng w)) in
  let text_after := fst (lorem_paragraph g1) in
  let w2 := mkWorld (snd (lorem_paragraph g1)) (clock w) (dirs w) (written w) in
  let n := Py.len table_title_data in
  generate_tex_code table_data table_title_data w
  = match cell_width 15 n with
    | None => (Raise ZeroDivisionError, w2)
    | Some width =>
        (Return
           (Py.replace TEXT_AFTER_TABLE text_after
              (Py.replace TABLE
                 (Py.replace TABLE_TITLE
                    (Py.join CELL_SEPARATOR table_title_data)
                    (Py.replace TABLE_SCHEMA
                       (get_schema n ("p{" ++ Py.str width ++ "cm}"))
                       (Py.replace TABLE_ROWS_LIST
                          (Py.join ROW_TERMINATOR
                             (map (Py.join CELL_SEPARATOR) table_data))
                          TEX_TABLE_PATTERN)))
                 (Py.replace TEXT_BEFORE_TABLE text_before
                    TEX_DOCUMENT_PATTERN))),
         w2)
    end.
Proof.
  cbv zeta. unfold generate_tex_code, bind, paragraph.
  destruct (lorem_paragraph (rng w)) as [tb g1]. cbn [fst snd rng clock dirs written].
  destruct (lorem_paragraph g1) as [ta g2]. cbn [fst snd].
  rewrite fold_left_append_map. cbn [app].
  destruct (cell_width 15 (Py.len table_title_data)); reflexivity.
Qed.

Lemma len_nonempty {A : Type} (l : list A) : l <> [] -> 1 <= Py.len l.
Proof. destruct l; [easy|]. unfold Py.len. simpl. lia. Qed.

(** The document [generate_tex_code] returns for a title row that is not
    empty. *)
Lemma generate_tex_code_document (table_data : list (list string))
  (table_title_data : list string) (w : World E) :
  table_title_data <> [] ->
  let n := Py.len table_title_data in
  let title_line := Py.join CELL_SEPARATOR table_title_data in
  exists opening header text_after w',
    generate_tex_code table_data table_title_data w
    = (Return
         (DOCUMENT_HEAD ++ nl ++ opening ++ nl ++ nl
          ++ table_text ("\begin{tabular}{" ++ schema_for n ++ "}") "\hline"
               header
               (terminated
                  (map (later_passes (schema_for n) title_line text_after)
                       (row_lines table_data)))
               ("\end{tabular}" ++ nl ++ nl ++ text_after ++ nl
                ++ "\end{document}")),
       w').
Proof.
  intros Hne n title_line. rewrite generate_tex_code_run. cbv zeta.
  fold n. rewrite (cell_width_positive 15 n) by (try apply len_nonempty; easy).
  fold (schema_for n). fold title_line.
  rewrite (tex_table_shape (schema_for n) title_line table_data
             (schema_no_underscore n)).
  rewrite tex_document_shape. rewrite map_map.
  rewrite (replace_placeholder_absent TEXT_AFTER_TABLE _
             ("\begin{tabular}{" ++ schema_for n ++ "}")).
  2: reflexivity.
  2: { cbn [append Py.mem_char]. rewrite mem_char_append, schema_no_underscore.
       reflexivity. }
  eexists _, _, _, _. reflexivity.
Qed.

(** C6. In the document every row line is followed by the row terminator,
    the line break, the rule and a line feed, the last row included: the
    rows stand as [terminated] lines right before the end of the table.
    A row line is the row's cells joined by the cell separator, as the
    substitutions that come after the rows leave it: unchanged when it
    holds no underscore, hence no placeholder. *)
Theorem every_row_is_terminated (table_data : list (list string))
  (table_title_data : list string) (w : World E) :
  table_title_data <> [] ->
  exists document w' pre post schema title_line text_after,
    generate_tex_code table_data table_title_data w = (Return document, w')
    /\ document
       = pre
         ++ terminated
              (map (fun row => later_passes schema title_line text_after
                                 (Py.join CELL_SEPARATOR row))
                   table_data)
         ++ "\end{tabular}" ++ post
    /\ (forall row,
          Py.mem_char "_" (Py.join CELL_SEPARATOR row) = false ->
          later_passes schema title_line text_after
            (Py.join CELL_SEPARATOR row)
          = Py.join CELL_SEPARATOR row)
    /\ ROW_TERMINATOR = " \\ \hline" ++ nl.
Proof.
  intros Hne.
  destruct (generate_tex_code_document table_data table_title_data w Hne)
    as (opening & header & text_after & w' & Hrun).
  set (n := Py.len table_title_data) in *.
  set (title_line := Py.join CELL_SEPARATOR table_title_data) in *.
  set (shown := later_passes (schema_for n) title_line text_after) in *.
  eexists _, w',
    (DOCUMENT_HEAD ++ nl ++ opening ++ nl ++ nl
     ++ ("\begin{tabular}{" ++ schema_for n ++ "}") ++ nl ++ "\hline" ++ nl
     ++ header ++ nl
     ++ match table_data with [] => ROW_TERMINATOR | _ => "" end),
    (nl ++ nl ++ text_after ++ nl ++ "\end{document}"),
    (schema_for n), title_line, text_after.
  split; [exact Hrun|]. split; [|split; [|reflexivity]].
  - unfold table_text. rewrite !append_assoc. do 9 f_equal.
    destruct table_data as [|row rows]; [reflexivity|].
    unfold row_lines. rewrite map_map. reflexivity.
  - intros row Hrow. unfold later_passes.
    rewrite (replace_placeholder_absent TABLE_SCHEMA _ _ eq_refl Hrow).
    rewrite (replace_placeholder_absent TABLE_TITLE _ _ eq_refl Hrow).
    apply (replace_placeholder_absent TEXT_AFTER_TABLE _ _ eq_refl Hrow).
Qed.

(** C4. For [n >= 1] columns the cell width is the floor of [15 / n]; the
    schema repeats the bordered fixed-width column once per column and
    closes the border, and it is the schema of the [tabular] in the
    document.  Three columns give [|p{5cm}|p{5cm}|p{5cm}|]; seven columns
    give the width 2. *)
Theorem column_schema_width (n : Z) :
  1 <= n ->
  cell_width 15 n = Some (15 / n)
  /\ schema_for n
     = Py.repeat_str ("|p{" ++ Py.str (15 / n) ++ "cm}") (Z.to_nat n) ++ "|"
  /\ (forall table_data table_title_data (w : World E),
        Py.len table_title_data = n ->
        exists document w' pre post,
          generate_tex_code table_data table_title_data w
            = (Return document, w')
          /\ document
             = pre ++ "\begin{tabular}{" ++ schema_for n ++ "}" ++ post)
  /\ schema_for 3 = "|p{5cm}|p{5cm}|p{5cm}|"
  /\ cell_width 15 7 = Some 2.
Proof.
  intros Hn. split; [apply cell_width_positive; lia|].
  split; [reflexivity|]. split; [|split; reflexivity].
  intros table_data table_title_data w Hlen.
  assert (Hne : table_title_data <> []).
  { intros ->. unfold Py.len in Hlen. simpl in Hlen. lia. }
  destruct (generate_tex_code_document table_data table_title_data w Hne)
    as (opening & header & text_after & w' & Hrun).
  rewrite Hlen in Hrun.
  eexists _, w', (DOCUMENT_HEAD ++ nl ++ opening ++ nl ++ nl), _.
  split; [exact Hrun|].
  unfold table_text. rewrite !append_assoc. reflexivity.
Qed.

(** C10. With an empty title row [generate_tex_code] raises
    [ZeroDivisionError]; with any other title row it returns, and the
    schema of the table is the one for as many columns as the title row
    has entries, whatever the rows of the table are. *)
Theorem generate_tex_code_divides_by_title_length
  (table_data : list (list string)) (table_title_data : list string)
  (w : World E) :
  (table_title_data = [] ->
   exists w',
     generate_tex_code table_data table_title_data w
     = (Raise ZeroDivisionError, w'))
  /\ (table_title_data <> [] ->
      exists document w' pre post,
        generate_tex_code table_data table_title_data w
          = (Return document, w')
        /\ document
           = pre ++ "\begin{tabular}{"
                 ++ schema_for (Py.len table_title_data) ++ "}" ++ post).
Proof.
  split.
  - intros ->. rewrite generate_tex_code_run. cbv zeta.
    eexists. reflexivity.
  - intros Hne.
    destruct (generate_tex_code_document table_data table_title_data w Hne)
      as (opening & header & text_after & w' & Hrun).
    eexists _, w', (DOCUMENT_HEAD ++ nl ++ opening ++ nl ++ nl), _.
    split; [exact Hrun|].
    unfold table_text. rewrite !append_assoc. reflexivity.
Qed.

End Rendering.

Lemma every_row_is_terminated_witness :
  exists document w' pre post schema title_line text_after,
    generate_tex_code [["a"; "b"]; ["c"; "d"]] ["title0"; "title1"] demo_world
      = (Return document, w')
    /\ document
       = pre
         ++ terminated
              (map (fun row => later_passes schema title_line text_after
                                 (Py.join CELL_SEPARATOR row))
                   [["a"; "b"]; ["c"; "d"]])
         ++ "\end{tabular}" ++ post
    /\ (forall row,
          Py.mem_char "_" (Py.join CELL_SEPARATOR row) = false ->
          later_passes schema title_line text_after
            (Py.join CELL_SEPARATOR row)
          = Py.join CELL_SEPARATOR row)
    /\ ROW_TERMINATOR = " \\ \hline" ++ nl.
Proof.
  apply (@every_row_is_terminated demo [["a"; "b"]; ["c"; "d"]]
           ["title0"; "title1"] demo_world).
  discriminate.
Defined.

Lemma column_schema_width_witness :
  1 <= 3
  /\ cell_width 15 3 = Some (15 / 3)
  /\ schema_for 3
     = Py.repeat_str ("|p{" ++ Py.str (15 / 3) ++ "cm}") (Z.to_nat 3) ++ "|"
  /\ (forall table_data table_title_data (w : World demo),
        Py.len table_title_data = 3 ->
        exists document w' pre post,
          generate_tex_code table_data table_title_data w
            = (Return document, w')
          /\ document
             = pre ++ "\begin{tabular}{" ++ schema_for 3 ++ "}" ++ post)
  /\ schema_for 3 = "|p{5cm}|p{5cm}|p{5cm}|"
  /\ cell_width 15 7 = Some 2.
Proof.
  split; [lia | apply (@column_schema_width demo 3); lia].
Defined.

Lemma generate_tex_code_divides_by_title_length_witness :
  (exists w',
     generate_tex_code [["a"; "b"]] [] demo_world
     = (Raise ZeroDivisionError, w'))
  /\ (exists document w' pre post,
        generate_tex_code [["a"; "b"; "c"]] ["title0"; "title1"] demo_world
          = (Return document, w')
        /\ document
           = pre ++ "\begin{tabular}{"
                 ++ schema_for (Py.len ["title0"; "title1"]) ++ "}" ++ post).
Proof.
  split.
  - apply (proj1 (@generate_tex_code_divides_by_title_length demo
                    [["a"; "b"]] [] demo_world)).
    reflexivity.
  - apply (proj2 (@generate_tex_code_divides_by_title_length demo
                    [["a"; "b"; "c"]] ["title0"; "title1"] demo_world)).
    discriminate.
Defined.

(** ** The CSV file *)

Module CsvFacts.

Import Csv.

Lemma process_line_app (r : ReaderObj) (a b : string) :
  process_line r (a ++ b)
  = match process_line r a with
    | Some r' => process_line r' b
    | None => None
    end.
Proof.
  revert r. induction a as [|c a IH]; intros r; simpl; [reflexivity|].
  destruct (parse_process_char r (Some c)); [apply IH | reflexivity].
Qed.

Lemma records_from_nil (r : ReaderObj) : records_from r [] = end_of_input r.
Proof. reflexivity. Qed.

Lemma records_from_line (r0 r : ReaderObj) (line : string)
  (rest : list string) :
  process_line r0 line = Some r ->
  records_from r0 (line :: rest)
  = end_of_line r (fun r' => records_from r' rest).
Proof.
  intros H. cbn [records_from]. rewrite H. unfold end_of_line.
  destruct (parse_process_char r None); reflexivity.
Qed.

Lemma end_of_line_ext (r : ReaderObj)
  (k1 k2 : ReaderObj -> option (list (list string))) :
  (forall r', k1 r' = k2 r') -> end_of_line r k1 = end_of_line r k2.
Proof.
  intros H. unfold end_of_line.
  destruct (parse_process_char r None) as [r2|]; [|reflexivity].
  now rewrite !H.
Qed.

Lemma empty_eqb (s : string) :
  (String.length s =? 0)%nat = true <-> s = "".
Proof. destruct s; simpl; split; congruence. Qed.

(** Reading the lines of a text is running the parser over its
    characters. *)
Lemma records_from_lines (n : nat) :
  forall s, (String.length s <= n)%nat ->
  forall r0 cur r,
    process_line r0 cur = Some r ->
    records_from r0 (lines_from cur s)
    = run r (negb (String.length cur =? 0)%nat) s.
Proof.
  induction n as [|n IH]; intros s Hlen r0 cur r Hcur.
  - destruct s; [|simpl in Hlen; lia].
    destruct cur as [|c cur]; cbn [lines_from run String.length Nat.eqb negb].
    + simpl in Hcur. injection Hcur as ->. reflexivity.
    + rewrite (records_from_line _ _ _ _ Hcur). reflexivity.
  - destruct s as [|c s].
    { apply (IH ""); [simpl; lia | assumption]. }
    simpl in Hlen.
    assert (Hstep : forall x, process_line r0 (cur ++ String c x)
                    = match parse_process_char r (Some c) with
                      | Some r1 => process_line r1 x
                      | None => None
                      end).
    { intros x. rewrite process_line_app, Hcur. reflexivity. }
    cbn [lines_from run].
    destruct (parse_process_char r (Some c)) as [r1|] eqn:Hc.
    2: { (* the character is refused *)
      destruct (Ascii.eqb c LF).
      { cbn [records_from]. now rewrite (Hstep ""). }
      destruct (Ascii.eqb c CR).
      { destruct s as [|d s'].
        - cbn [records_from]. now rewrite (Hstep "").
        - destruct (Ascii.eqb d LF); cbn [records_from].
          + now rewrite (Hstep (String d "")).
          + now rewrite (Hstep ""). }
      assert (Hnone : forall t m, (String.length t <= m)%nat ->
                forall cur', process_line r0 cur' = None ->
                records_from r0 (lines_from cur' t) = None).
      { clear. intros t m. revert t.
        induction m as [|m IHm]; intros t Ht cur' Hcur'.
        - destruct t; [|simpl in Ht; lia]. simpl.
          destruct cur'; [discriminate|]. cbn [records_from].
          now rewrite Hcur'.
        - destruct t as [|c t]; [apply (IHm ""); [simpl; lia | easy]|].
          simpl in Ht. cbn [lines_from].
          assert (Hx : forall x, process_line r0 (cur' ++ x) = None).
          { intros x. now rewrite process_line_app, Hcur'. }
          destruct (Ascii.eqb c LF).
          { cbn [records_from]. now rewrite Hx. }
          destruct (Ascii.eqb c CR).
          { destruct t as [|d t'].
            - cbn [records_from]. now rewrite Hx.
            - destruct (Ascii.eqb d LF); cbn [records_from];
                now rewrite Hx. }
          apply IHm; [lia | apply Hx]. }
      apply (Hnone s n); [lia|]. now rewrite (Hstep ""). }
    destruct (Ascii.eqb c LF).
    { rewrite (records_from_line r0 r1); [|now rewrite (Hstep "")].
      apply end_of_line_ext. intros r'.
      apply (IH s); [lia | reflexivity]. }
    destruct (Ascii.eqb c CR).
    { destruct s as [|d s'].
      - rewrite (records_from_line r0 r1); [|now rewrite (Hstep "")].
        apply end_of_line_ext. intros r'. apply (IH ""); [simpl; lia | easy].
      - destruct (Ascii.eqb d LF).
        + destruct (parse_process_char r1 (Some d)) as [r2|] eqn:Hd.
          * rewrite (records_from_line r0 r2).
            2: { rewrite (Hstep (String d "")). simpl. now rewrite Hd. }
            apply end_of_line_ext. intros r'.
            apply (IH s'); [simpl in Hlen; lia | reflexivity].
          * cbn [records_from]. rewrite (Hstep (String d "")). simpl.
            now rewrite Hd.
        + rewrite (records_from_line r0 r1); [|now rewrite (Hstep "")].
          apply end_of_line_ext. intros r'.
          apply (IH (String d s')); [lia | reflexivity]. }
    rewrite (IH s) with (r := r1); [|lia | now rewrite (Hstep "")].
    f_equal. rewrite length_append. simpl.
    now replace (String.length cur + 1)%nat with (S (String.length cur)) by lia.
Qed.

Lemma reader_run (file : string) : reader file = run parse_reset false file.
Proof.
  unfold reader, readlines.
  now rewrite (records_from_lines (String.length file) file (le_n _)
                 parse_reset "" parse_reset eq_refl).
Qed.

End CsvFacts.

Module CsvRoundTrip.

Import Csv.

(** A character the writer does not quote for is none of the characters
    the parser treats specially. *)
Lemma special_false (c : ascii) :
  special c = false ->
  Ascii.eqb c delimiter = false /\ Ascii.eqb c quotechar = false
  /\ Ascii.eqb c LF = false /\ Ascii.eqb c CR = false.
Proof.
  unfold special. cbn [lineterminator Py.mem_char]. intros H.
  repeat (apply orb_false_iff in H as [H ?]).
  apply orb_false_iff in H0 as [? H0]. apply orb_false_iff in H0 as [? _].
  auto.
Qed.

Lemma run_plain (r : ReaderObj) (p : bool) (c : ascii) (s : string) :
  Ascii.eqb c LF = false -> Ascii.eqb c CR = false ->
  run r p (String c s)
  = match parse_process_char r (Some c) with
    | Some r1 => run r1 true s
    | None => None
    end.
Proof. intros Hlf Hcr. cbn [run]. now rewrite Hlf, Hcr. Qed.

(** The characters of an unquoted field are added one by one. *)
Lemma in_field_body (f : string) :
  has_special f = false ->
  forall fs0 acc tail,
    run (mkReader IN_FIELD fs0 acc) true (f ++ tail)
    = run (mkReader IN_FIELD fs0 (acc ++ f)) true tail.
Proof.
  induction f as [|c f IH]; intros Hf fs0 acc tail.
  - simpl. now rewrite append_nil_r.
  - cbn [has_special] in Hf. apply orb_false_iff in Hf as [Hc Hf].
    destruct (special_false c Hc) as (Hd & Hq & Hlf & Hcr).
    cbn [append]. rewrite (run_plain _ _ c _ Hlf Hcr).
    unfold parse_process_char, is_newline. cbn [state].
    rewrite Hlf, Hcr, Hd. cbn [orb].
    unfold parse_add_char. cbn [state fields field].
    rewrite (IH Hf), append_assoc. reflexivity.
Qed.

Lemma run_lf (r : ReaderObj) (p : bool) (s : string) :
  run r p (String LF s)
  = match parse_process_char r (Some LF) with
    | Some r1 => end_of_line r1 (fun r' => run r' false s)
    | None => None
    end.
Proof. reflexivity. Qed.

Lemma run_crlf (r : ReaderObj) (p : bool) (s : string) :
  run r p (String CR (String LF s))
  = match parse_process_char r (Some CR) with
    | Some r1 =>
        match parse_process_char r1 (Some LF) with
        | Some r2 => end_of_line r2 (fun r' => run r' false s)
        | None => None
        end
    | None => None
    end.
Proof. reflexivity. Qed.

Lemma run_cr (r : ReaderObj) (p : bool) (c : ascii) (s : string) :
  Ascii.eqb c LF = false ->
  run r p (String CR (String c s))
  = match parse_process_char r (Some CR) with
    | Some r1 => end_of_line r1 (fun r' => run r' false (String c s))
    | None => None
    end.
Proof.
  intros Hc. cbn [run]. change (Ascii.eqb CR LF) with false.
  change (Ascii.eqb CR CR) with true. cbn iota. now rewrite Hc.
Qed.

(** Inside quotes: a character other than the quote is added, the end of
    a line changes nothing, a quote may close the field. *)
Lemma quoted_add (fs0 : list string) (acc : string) (c : ascii) :
  Ascii.eqb c quotechar = false ->
  parse_process_char (mkReader IN_QUOTED_FIELD fs0 acc) (Some c)
  = Some (mkReader IN_QUOTED_FIELD fs0 (acc ++ String c "")).
Proof. intros Hc. unfold parse_process_char. cbn [state]. now rewrite Hc. Qed.

Lemma quoted_end_of_line (fs0 : list string) (acc : string)
  (k : ReaderObj -> option (list (list string))) :
  end_of_line (mkReader IN_QUOTED_FIELD fs0 acc) k
  = k (mkReader IN_QUOTED_FIELD fs0 acc).
Proof. reflexivity. Qed.

Lemma quoted_quote (fs0 : list string) (acc : string) :
  parse_process_char (mkReader IN_QUOTED_FIELD fs0 acc) (Some quotechar)
  = Some (mkReader QUOTE_IN_QUOTED_FIELD fs0 acc).
Proof. reflexivity. Qed.

Lemma quote_quote (fs0 : list string) (acc : string) :
  parse_process_char (mkReader QUOTE_IN_QUOTED_FIELD fs0 acc) (Some quotechar)
  = Some (mkReader IN_QUOTED_FIELD fs0 (acc ++ String quotechar "")).
Proof. reflexivity. Qed.

(** What the written body of a quoted field starts with. *)
Lemma doubled_head (f tail : string) :
  exists c s,
    doubled f ++ String quotechar tail = String c s
    /\ (Ascii.eqb c LF = true ->
        exists f', f = String LF f'
                   /\ s = doubled f' ++ String quotechar tail).
Proof.
  destruct f as [|d f]; cbn [doubled append].
  - eexists _, _. split; [reflexivity | discriminate].
  - destruct (Ascii.eqb_spec d quotechar) as [->|Hq]; cbn [append].
    + eexists _, _. split; [reflexivity | discriminate].
    + eexists _, _. split; [reflexivity|]. intros Hd.
      apply Ascii.eqb_eq in Hd as ->. now exists f.
Qed.

(** The body of a quoted field up to its closing quote: doubled quotes
    give one quote, ends of line inside the quotes are kept. *)
Lemma quoted_body (n : nat) :
  forall f, (String.length f <= n)%nat ->
  forall fs0 acc p tail,
    run (mkReader IN_QUOTED_FIELD fs0 acc) p
        (doubled f ++ String quotechar tail)
    = run (mkReader QUOTE_IN_QUOTED_FIELD fs0 (acc ++ f)) true tail.
Proof.
  induction n as [|n IH]; intros f Hlen fs0 acc p tail.
  - destruct f; [|simpl in Hlen; lia]. cbn [doubled append].
    rewrite run_plain, quoted_quote by reflexivity. now rewrite append_nil_r.
  - destruct f as [|c f]; [apply (IH ""); simpl; lia|].
    simpl in Hlen.
    assert (Hacc : forall x t, (acc ++ String x "") ++ t = acc ++ String x t).
    { intros x t. now rewrite append_assoc. }
    cbn [doubled].
    destruct (Ascii.eqb_spec c quotechar) as [->|Hq].
    { (* a quote, written twice *)
      cbn [append]. rewrite run_plain, quoted_quote by reflexivity.
      rewrite run_plain, quote_quote by reflexivity.
      rewrite (IH f) by lia. now rewrite Hacc. }
    apply Ascii.eqb_neq in Hq. cbn [append].
    destruct (Ascii.eqb_spec c LF) as [->|Hlf].
    { (* a line feed ends a line inside the quotes *)
      rewrite run_lf, (quoted_add _ _ _ Hq), quoted_end_of_line.
      rewrite (IH f) by lia. now rewrite Hacc. }
    destruct (Ascii.eqb_spec c CR) as [->|Hcr].
    { (* a carriage return, alone or with the line feed after it *)
      destruct (doubled_head f tail) as (d & s & Heq & Hpair).
      rewrite Heq. destruct (Ascii.eqb d LF) eqn:Hd.
      - destruct (Hpair eq_refl) as (f' & -> & ->).
        apply Ascii.eqb_eq in Hd as ->. simpl in Hlen.
        rewrite run_crlf, (quoted_add _ _ _ Hq).
        rewrite (quoted_add _ _ LF eq_refl), quoted_end_of_line.
        rewrite (IH f') by lia. now rewrite !append_assoc.
      - rewrite (run_cr _ _ _ _ Hd), (quoted_add _ _ _ Hq).
        rewrite quoted_end_of_line, <- Heq.
        rewrite (IH f) by lia. now rewrite Hacc. }
    apply Ascii.eqb_neq in Hlf, Hcr.
    rewrite (run_plain _ _ c _ Hlf Hcr), (quoted_add _ _ _ Hq).
    rewrite (IH f) by lia. now rewrite Hacc.
Qed.

Lemma encode_quoted (f : string) :
  has_special f = true ->
  encode f = String quotechar (doubled f ++ String quotechar "").
Proof. unfold encode, join_append_data. now intros ->. Qed.

Lemma encode_plain (f : string) : has_special f = false -> encode f = f.
Proof. unfold encode, join_append_data. now intros ->. Qed.

(** After the field: the same steps whether it was quoted or not. *)
Lemma after_field (st : ParserState) (fs0 : list string) (f tail : string) :
  st = IN_FIELD \/ st = QUOTE_IN_QUOTED_FIELD ->
  run (mkReader st fs0 f) true (String delimiter tail)
  = run (mkReader START_FIELD (fs0 ++ [f]) "") true tail
  /\ run (mkReader st fs0 f) true (lineterminator ++ tail)
     = option_map (cons (fs0 ++ [f])%list) (run parse_reset false tail).
Proof. intros [-> | ->]; split; reflexivity. Qed.

Lemma after_empty_field (fs0 : list string) (p : bool) (tail : string) :
  run (mkReader START_FIELD fs0 "") p (String delimiter tail)
  = run (mkReader START_FIELD (fs0 ++ [""]) "") true tail
  /\ run (mkReader START_FIELD fs0 "") p (lineterminator ++ tail)
     = option_map (cons (fs0 ++ [""])%list) (run parse_reset false tail).
Proof. split; reflexivity. Qed.

(** One written field, read from the start of a field. *)
Lemma read_field (f : string) (fs0 : list string) (p : bool) (tail : string) :
  f <> "" ->
  exists st,
    (st = IN_FIELD \/ st = QUOTE_IN_QUOTED_FIELD)
    /\ run (mkReader START_FIELD fs0 "") p (encode f ++ tail)
       = run (mkReader st fs0 f) true tail.
Proof.
  intros Hne. destruct (has_special f) eqn:Hf.
  - exists QUOTE_IN_QUOTED_FIELD. split; [now right|].
    rewrite (encode_quoted f Hf). cbn [append].
    rewrite run_plain by reflexivity.
    change (parse_process_char (mkReader START_FIELD fs0 "") (Some quotechar))
      with (Some (mkReader IN_QUOTED_FIELD fs0 "")).
    rewrite append_assoc. cbn [append].
    now rewrite (quoted_body (String.length f) f (le_n _)).
  - exists IN_FIELD. split; [now left|].
    rewrite (encode_plain f Hf).
    destruct f as [|c f]; [easy|].
    cbn [has_special] in Hf. apply orb_false_iff in Hf as [Hc Hf].
    destruct (special_false c Hc) as (Hd & Hq & Hlf & Hcr).
    cbn [append]. rewrite (run_plain _ _ c _ Hlf Hcr).
    unfold parse_process_char, is_newline. cbn [state].
    rewrite Hlf, Hcr, Hq, Hd. cbn [orb].
    unfold set_state, parse_add_char. cbn [state fields field append].
    now rewrite (in_field_body f Hf).
Qed.

Lemma field_then_delimiter (f : string) (fs0 : list string) (p : bool)
  (tail : string) :
  run (mkReader START_FIELD fs0 "") p (encode f ++ String delimiter tail)
  = run (mkReader START_FIELD (fs0 ++ [f]) "") true tail.
Proof.
  destruct f as [|c f].
  - apply after_empty_field.
  - destruct (read_field (String c f) fs0 p (String delimiter tail))
      as (st & Hst & ->); [easy|].
    now apply after_field.
Qed.

Lemma field_then_terminator (f : string) (fs0 : list string) (p : bool)
  (tail : string) :
  run (mkReader START_FIELD fs0 "") p (encode f ++ lineterminator ++ tail)
  = option_map (cons (fs0 ++ [f])%list) (run parse_reset false tail).
Proof.
  destruct f as [|c f].
  - apply after_empty_field.
  - destruct (read_field (String c f) fs0 p (lineterminator ++ tail))
      as (st & Hst & ->); [easy|].
    now apply after_field.
Qed.

(** The fields of a record, read from the start of a field. *)
Lemma read_fields (fs : list string) :
  forall f fs0 p tail,
    run (mkReader START_FIELD fs0 "") p
        (Py.join (String delimiter "") (map encode (f :: fs))
         ++ lineterminator ++ tail)
    = option_map (cons (fs0 ++ f :: fs)%list) (run parse_reset false tail).
Proof.
  induction fs as [|g fs IH]; intros f fs0 p tail.
  - cbn [map Py.join String.concat]. apply field_then_terminator.
  - change (Py.join (String delimiter "") (map encode (f :: g :: fs)))
      with (encode f ++ String delimiter ""
            ++ Py.join (String delimiter "") (map encode (g :: fs))).
    rewrite !append_assoc. cbn [append].
    rewrite field_then_delimiter, IH, <- app_assoc. reflexivity.
Qed.

(** A written record that is not the lone empty field starts with a
    character that is no end of line. *)
Lemma record_head (f : string) (fs : list string) :
  f :: fs <> [""] ->
  exists c s,
    Py.join (String delimiter "") (map encode (f :: fs)) = String c s
    /\ is_newline c = false.
Proof.
  intros Hne. destruct (has_special f) eqn:Hf.
  - exists quotechar. cbn [map]. rewrite (encode_quoted f Hf).
    destruct fs; cbn [map Py.join String.concat append];
      eexists; split; reflexivity.
  - cbn [map]. rewrite (encode_plain f Hf). destruct f as [|c f].
    + destruct fs as [|g fs]; [easy|].
      exists delimiter. eexists. split; reflexivity.
    + cbn [has_special] in Hf. apply orb_false_iff in Hf as [Hc _].
      destruct (special_false c Hc) as (_ & _ & Hlf & Hcr).
      exists c. unfold is_newline. rewrite Hlf, Hcr.
      destruct fs; cbn [map Py.join String.concat append];
        eexists; split; reflexivity.
Qed.

Lemma start_of_record (p : bool) (c : ascii) (s : string) :
  is_newline c = false ->
  run parse_reset p (String c s)
  = run (mkReader START_FIELD [] "") p (String c s).
Proof.
  intros Hc. cbn [run]. unfold parse_process_char, parse_reset.
  cbn [state]. unfold set_state. cbn [state fields field]. now rewrite Hc.
Qed.

(** One written row is read back as that row. *)
Lemma read_row (row : list string) (tail : string) :
  run parse_reset false (writerow row ++ tail)
  = option_map (cons row) (run parse_reset false tail).
Proof.
  destruct row as [|f fs]; [reflexivity|].
  destruct (list_eq_dec string_dec (f :: fs) [""]) as [Heq|Hne].
  - injection Heq as -> ->. reflexivity.
  - destruct (record_head f fs Hne) as (c & s & Hrec & Hc).
    unfold writerow. cbv zeta.
    set (rec := Py.join (String delimiter "") (map encode (f :: fs))) in *.
    assert (Hlen : (String.length rec =? 0)%nat = false)
      by (rewrite Hrec; reflexivity).
    rewrite Hlen, andb_false_r, append_assoc.
    transitivity (run (mkReader START_FIELD [] "") false
                      (rec ++ lineterminator ++ tail)).
    { rewrite Hrec. cbn [append]. now apply start_of_record. }
    apply (read_fields fs f [] false tail).
Qed.

Lemma fold_left_rows (rows : list (list string)) (file : string) :
  fold_left (fun file row => file ++ writerow row) rows file
  = file ++ fold_right (fun row text => writerow row ++ text) "" rows.
Proof.
  revert file. induction rows as [|row rows IH]; intros file; simpl.
  - now rewrite append_nil_r.
  - now rewrite IH, append_assoc.
Qed.

Lemma read_rows (rows : list (list string)) :
  run parse_reset false
      (fold_right (fun row text => writerow row ++ text) "" rows)
  = Some rows.
Proof.
  induction rows as [|row rows IH]; [reflexivity|].
  cbn [fold_right]. now rewrite read_row, IH.
Qed.

End CsvRoundTrip.

(** C2. Reading the CSV file the script writes, with the dialect it was
    written in, gives the title row and then the rows of the table, in
    order and cell for cell, for every table and title row. *)
Theorem csv_round_trip (table_title : list string)
  (table_data : list (list string)) :
  Csv.reader (csv_text table_title table_data)
  = Some (table_title :: table_data).
Proof.
  rewrite CsvFacts.reader_run. unfold csv_text.
  rewrite CsvRoundTrip.fold_left_rows.
  apply (CsvRoundTrip.read_rows (table_title :: table_data)).
Qed.

(** ** The sweep *)

Lemma get_table_title_nonempty (n : Z) (name : string) :
  1 <= n -> get_table_title n name <> [].
Proof.
  intros Hn H. apply (f_equal (@List.length string)) in H.
  unfold get_table_title in H. rewrite length_map, range_length in H.
  simpl in H. lia.
Qed.

Lemma in_row_counts (r_c : Z) :
  In r_c [2; 3; 4; 5; 6; 7; 8; 9] <-> 2 <= r_c <= 9.
Proof.
  split.
  - simpl. intuition lia.
  - intros H.
    assert (r_c = 2 \/ r_c = 3 \/ r_c = 4 \/ r_c = 5 \/ r_c = 6 \/ r_c = 7
            \/ r_c = 8 \/ r_c = 9) as Hcases by lia.
    simpl. intuition auto.
Qed.

Lemma in_column_counts (c_c : Z) :
  In c_c [2; 3; 4; 5; 6; 7] <-> 2 <= c_c <= 7.
Proof.
  split.
  - simpl. intuition lia.
  - intros H.
    assert (c_c = 2 \/ c_c = 3 \/ c_c = 4 \/ c_c = 5 \/ c_c = 6 \/ c_c = 7)
      as Hcases by lia.
    simpl. intuition auto.
Qed.

Lemma in_sweep_paths (path : string) :
  In path sweep_paths
  <-> exists r_c c_c filling,
        2 <= r_c <= 9 /\ 2 <= c_c <= 7
        /\ In path (artifact_paths r_c c_c filling).
Proof.
  unfold sweep_paths. rewrite in_flat_map. split.
  - intros (r_c & Hr & H). rewrite in_flat_map in H.
    destruct H as (c_c & Hc & H). rewrite in_flat_map in H.
    destruct H as (filling & _ & H).
    exists r_c, c_c, filling.
    rewrite <- in_row_counts, <- in_column_counts. auto.
  - intros (r_c & c_c & filling & Hr & Hc & H).
    exists r_c. rewrite in_row_counts. split; [assumption|].
    rewrite in_flat_map. exists c_c. rewrite in_column_counts.
    split; [assumption|]. rewrite in_flat_map. exists filling.
    split; [destruct filling; simpl; auto | assumption].
Qed.

Lemma in_sweep_combinations (r_c c_c : Z) (filling : bool) :
  In (r_c, c_c, filling) sweep_combinations
  <-> 2 <= r_c <= 9 /\ 2 <= c_c <= 7.
Proof.
  unfold sweep_combinations. rewrite in_flat_map. split.
  - intros (r & Hr & H). rewrite in_flat_map in H.
    destruct H as (c & Hc & H). rewrite in_map_iff in H.
    destruct H as (f & Heq & _). injection Heq as <- <- <-.
    rewrite <- in_row_counts, <- in_column_counts. auto.
  - intros (Hr & Hc).
    exists r_c. rewrite in_row_counts. split; [assumption|].
    rewrite in_flat_map. exists c_c. rewrite in_column_counts.
    split; [assumption|]. rewrite in_map_iff. exists filling.
    split; [reflexivity | destruct filling; simpl; auto].
Qed.

(** The files of the sweep, name by name, are the two named files of each
    combination, in the order of the combinations. *)
Lemma sweep_files_named :
  sweep_files = flat_map named_files sweep_combinations.
Proof. reflexivity. Qed.

(** The paths the script builds for a combination are its named files. *)
Lemma artifact_paths_named (r_c c_c : Z) (filling : bool) :
  artifact_paths r_c c_c filling = named_files (r_c, c_c, filling).
Proof.
  unfold artifact_paths, named_files, file_path_of, DIRECTORY_NAME,
    Py.str_bool.
  repeat (progress (rewrite ?append_assoc; cbn [append])). reflexivity.
Qed.

Lemma demo_build_pdf (tex : string) : @build_pdf demo tex <> None.
Proof. discriminate. Qed.

(* ================================================================= *)
(** * Further properties of the script *)

(** ** What [generate_data] draws *)

Lemma unfold_n_fst_length {S A : Type} (step : S -> A * S) (n : nat) (s : S) :
  List.length (fst (unfold_n step n s)) = n.
Proof.
  revert s. induction n as [|n IH]; intros s; simpl; [reflexivity|].
  destruct (step s) as [a s1]. specialize (IH s1).
  destruct (unfold_n step n s1) as [l s2]. simpl in *. now rewrite IH.
Qed.

Lemma unfold_n_add {S A : Type} (step : S -> A * S) (a b : nat) (s : S) :
  unfold_n step (a + b) s
  = let (l1, s1) := unfold_n step a s in
    let (l2, s2) := unfold_n step b s1 in
    ((l1 ++ l2)%list, s2).
Proof.
  revert s. induction a as [|a IH]; intros s; simpl.
  - now destruct (unfold_n step b s).
  - destruct (step s) as [x s1]. rewrite IH.
    destruct (unfold_n step a s1) as [l1 s2].
    now destruct (unfold_n step b s2).
Qed.

(** Rows of [n] successive results, flattened, are the successive
    results. *)
Lemma unfold_n_rows {S A : Type} (step : S -> A * S) (n m : nat) (s : S) :
  List.concat (fst (unfold_n (unfold_n step n) m s))
  = fst (unfold_n step (m * n) s)
  /\ snd (unfold_n (unfold_n step n) m s) = snd (unfold_n step (m * n) s).
Proof.
  revert s. induction m as [|m IH]; intros s; [split; reflexivity|].
  cbn [unfold_n Nat.mul]. rewrite unfold_n_add.
  destruct (unfold_n step n s) as [row s1]. specialize (IH s1).
  destruct (unfold_n (unfold_n step n) m s1) as [rows s2].
  destruct (unfold_n step (m * n) s1) as [l s3].
  simpl in *. destruct IH as [-> ->]. split; reflexivity.
Qed.

Section Draws.

Context {E : Externals}.

(** An appending loop over a producer that always returns collects the
    successive results of the producer. *)
Lemma for_in_unfold {X V : Type} (cell : M E V)
  (step : World E -> V * World E) :
  (forall w, cell w = (Return (fst (step w)), snd (step w))) ->
  forall (xs : list X) acc w,
    for_in xs acc (fun acc _ => bind cell (fun v => ret (acc ++ [v])%list)) w
    = (Return (acc ++ fst (unfold_n step (List.length xs) w))%list,
       snd (unfold_n step (List.length xs) w)).
Proof.
  intros Hcell xs. induction xs as [|x xs IH]; intros acc w.
  - simpl. now rewrite app_nil_r.
  - cbn [for_in List.length unfold_n].
    erewrite bind_return;
      [|erewrite bind_return; [reflexivity | apply Hcell]].
    rewrite IH. destruct (step w) as [v w1]. cbn [fst snd].
    destruct (unfold_n step (List.length xs) w1) as [l w2]. cbn [fst snd].
    now rewrite <- app_assoc.
Qed.

(** The rows and columns of [generate_data], for a cell producer that
    always returns. *)
Lemma generate_data_unfold (filling : bool)
  (step : World E -> string * World E) :
  (forall w,
     (if filling then sentence
      else bind now (fun t => ret (Py.str (Py.int_of_float t)))) w
     = (Return (fst (step w)), snd (step w))) ->
  forall rows cols w,
    generate_data rows cols filling w
    = (Return (fst (unfold_n (unfold_n step (Z.to_nat cols))
                             (Z.to_nat rows) w)),
       snd (unfold_n (unfold_n step (Z.to_nat cols)) (Z.to_nat rows) w)).
Proof.
  intros Hcell rows cols w. unfold generate_data.
  rewrite (for_in_unfold
             (for_in (Py.range cols) []
                (fun cells_in_row (_ : Z) =>
                   bind (if filling then sentence
                         else bind now (fun t =>
                                ret (Py.str (Py.int_of_float t))))
                        (fun cell_filling =>
                           ret (cells_in_row ++ [cell_filling])%list)))
             (unfold_n step (Z.to_nat cols))).
  - now rewrite range_length.
  - intros w0. rewrite (for_in_unfold _ step Hcell).
    now rewrite range_length.
Qed.

Lemma with_rng_same (w : World E) : with_rng w (rng w) = w.
Proof. now destruct w. Qed.

Lemma with_clock_same (w : World E) : with_clock w (clock w) = w.
Proof. now destruct w. Qed.

(** Stepping the world by its generator, or by its clock, is stepping
    that component. *)
Lemma unfold_n_rng {A : Type} (step : Rng -> A * Rng) (n : nat)
  (w : World E) :
  unfold_n (fun w => (fst (step (rng w)), with_rng w (snd (step (rng w)))))
           n w
  = (fst (unfold_n step n (rng w)),
     with_rng w (snd (unfold_n step n (rng w)))).
Proof.
  revert w. induction n as [|n IH]; intros w.
  - simpl. now rewrite with_rng_same.
  - cbn [unfold_n]. rewrite IH. cbn [rng with_rng].
    destruct (step (rng w)) as [a g1]. cbn [fst snd].
    now destruct (unfold_n step n g1).
Qed.

Lemma unfold_n_clock {A : Type} (step : Clock -> A * Clock) (n : nat)
  (w : World E) :
  unfold_n (fun w =>
              (fst (step (clock w)), with_clock w (snd (step (clock w)))))
           n w
  = (fst (unfold_n step n (clock w)),
     with_clock w (snd (unfold_n step n (clock w)))).
Proof.
  revert w. induction n as [|n IH]; intros w.
  - simpl. now rewrite with_clock_same.
  - cbn [unfold_n]. rewrite IH. cbn [clock with_clock].
    destruct (step (clock w)) as [a c1]. cbn [fst snd].
    now destruct (unfold_n step n c1).
Qed.

End Draws.

Lemma unfold_n_ext {S A : Type} (step1 step2 : S -> A * S) :
  (forall s, step1 s = step2 s) ->
  forall n s, unfold_n step1 n s = unfold_n step2 n s.
Proof.
  intros H n. induction n as [|n IH]; intros s; simpl; [reflexivity|].
  rewrite H. destruct (step2 s) as [a s1]. now rewrite IH.
Qed.

Lemma unfold_n_nothing {S A : Type} (m : nat) (s : S) :
  unfold_n (fun s : S => (@nil A, s)) m s = (repeat [] m, s).
Proof.
  induction m as [|m IH]; simpl; [reflexivity | now rewrite IH].
Qed.

Section DataDraws.

Context {E : Externals}.

Lemma sentence_step (w : World E) :
  sentence w
  = (Return (fst (lorem_sentence (rng w))),
     with_rng w (snd (lorem_sentence (rng w)))).
Proof. unfold sentence, with_rng. now destruct (lorem_sentence (rng w)). Qed.

Lemma timestamp_step (w : World E) :
  bind now (fun t => ret (Py.str (Py.int_of_float t))) w
  = (Return (fst (timestamp (clock w))),
     with_clock w (snd (timestamp (clock w)))).
Proof.
  unfold bind, now, ret, timestamp, with_clock.
  now destruct (time_time (clock w)).
Qed.

(** X1. In sentence mode the table is made of the successive sentences of
    the generator, row after row and cell after cell: flattened, it is the
    first [rows * columns] sentences.  The generator is left after exactly
    these draws; the clock, the directories and the files are untouched. *)
Theorem generate_data_draws_sentences (number_of_rows number_of_columns : Z)
  (w : World E) :
  let r := Z.to_nat number_of_rows in
  let c := Z.to_nat number_of_columns in
  let table := fst (unfold_n (unfold_n lorem_sentence c) r (rng w)) in
  let g := snd (unfold_n lorem_sentence (r * c) (rng w)) in
  generate_data number_of_rows number_of_columns true w
    = (Return table, with_rng w g)
  /\ List.concat table = fst (unfold_n lorem_sentence (r * c) (rng w)).
Proof.
  cbv zeta.
  rewrite (generate_data_unfold true
             (fun w => (fst (lorem_sentence (rng w)),
                        with_rng w (snd (lorem_sentence (rng w)))))
             sentence_step).
  rewrite (unfold_n_ext _ _
             (unfold_n_rng lorem_sentence (Z.to_nat number_of_columns))).
  rewrite (unfold_n_rng (unfold_n lorem_sentence (Z.to_nat number_of_columns))).
  cbn [fst snd].
  destruct (unfold_n_rows lorem_sentence (Z.to_nat number_of_columns)
              (Z.to_nat number_of_rows) (rng w)) as [Hcat Hend].
  rewrite Hend. split; [reflexivity | exact Hcat].
Qed.

(** X2. In timestamp mode the clock is read once per cell, row after row:
    flattened, the table is the first [rows * columns] readings, each
    rendered as [str(int(t))].  The clock is left after exactly these
    readings; the text generator, the directories and the files are
    untouched. *)
Theorem generate_data_reads_clock (number_of_rows number_of_columns : Z)
  (w : World E) :
  let r := Z.to_nat number_of_rows in
  let c := Z.to_nat number_of_columns in
  let table := fst (unfold_n (unfold_n timestamp c) r (clock w)) in
  let k := snd (unfold_n timestamp (r * c) (clock w)) in
  generate_data number_of_rows number_of_columns false w
    = (Return table, with_clock w k)
  /\ List.concat table = fst (unfold_n timestamp (r * c) (clock w)).
Proof.
  cbv zeta.
  rewrite (generate_data_unfold false
             (fun w => (fst (timestamp (clock w)),
                        with_clock w (snd (timestamp (clock w)))))
             timestamp_step).
  rewrite (unfold_n_ext _ _
             (unfold_n_clock timestamp (Z.to_nat number_of_columns))).
  rewrite (unfold_n_clock (unfold_n timestamp (Z.to_nat number_of_columns))).
  cbn [fst snd].
  destruct (unfold_n_rows timestamp (Z.to_nat number_of_columns)
              (Z.to_nat number_of_rows) (clock w)) as [Hcat Hend].
  rewrite Hend. split; [reflexivity | exact Hcat].
Qed.

(** X3. A count that is zero or negative is an empty range: with such a
    row count the table is empty, with such a column count every row is
    empty, and in both cases nothing is drawn and the state of the run is
    unchanged. *)
Theorem generate_data_nothing_to_draw (number_of_rows number_of_columns : Z)
  (filling_is_sentences : bool) (w : World E) :
  (number_of_rows <= 0 ->
   generate_data number_of_rows number_of_columns filling_is_sentences w
   = (Return [], w))
  /\ (number_of_columns <= 0 ->
      generate_data number_of_rows number_of_columns filling_is_sentences w
      = (Return (repeat [] (Z.to_nat number_of_rows)), w)).
Proof.
  split; intros Hle.
  - unfold generate_data, Py.range, Py.range2.
    replace (Z.to_nat (number_of_rows - 0)) with 0%nat by lia. reflexivity.
  - assert (Hstep : exists step : World E -> string * World E,
              forall w,
                (if filling_is_sentences then sentence
                 else bind now (fun t => ret (Py.str (Py.int_of_float t)))) w
                = (Return (fst (step w)), snd (step w))).
    { destruct filling_is_sentences.
      - exists (fun w => (fst (lorem_sentence (rng w)),
                          with_rng w (snd (lorem_sentence (rng w))))).
        exact sentence_step.
      - exists (fun w => (fst (timestamp (clock w)),
                          with_clock w (snd (timestamp (clock w))))).
        exact timestamp_step. }
    destruct Hstep as [step Hstep].
    rewrite (generate_data_unfold filling_is_sentences step Hstep).
    replace (Z.to_nat number_of_columns) with 0%nat by lia.
    change (unfold_n step 0) with (fun s : World E => (@nil string, s)).
    now rewrite unfold_n_nothing.
Qed.

End DataDraws.

Lemma generate_data_nothing_to_draw_witness :
  generate_data (-1) 3 true demo_world = (Return [], demo_world)
  /\ generate_data 2 0 false demo_world
     = (Return (repeat [] (Z.to_nat 2)), demo_world).
Proof.
  split.
  - apply (proj1 (@generate_data_nothing_to_draw demo (-1) 3 true demo_world)).
    lia.
  - apply (proj2 (@generate_data_nothing_to_draw demo 2 0 false demo_world)).
    lia.
Defined.

(** ** Titles and widths *)

Lemma str_injective (a b : Z) : Py.str a = Py.str b -> a = b.
Proof.
  intros H. pose proof (parse_int_str a) as Ha.
  rewrite H, parse_int_str in Ha. now injection Ha.
Qed.

Lemma append_injective (a x y : string) : a ++ x = a ++ y -> x = y.
Proof.
  induction a as [|c a IH]; simpl; [easy|]. intros [= H]. now apply IH.
Qed.

Lemma NoDup_map_injective {A B : Type} (f : A -> B) (l : list A) :
  (forall a b, f a = f b -> a = b) -> NoDup l -> NoDup (map f l).
Proof.
  intros Hf. induction 1 as [|x l Hx _ IH]; simpl; constructor; [|exact IH].
  rewrite in_map_iff. intros (y & Hy & Hin). apply Hf in Hy. now subst.
Qed.

Lemma range2_NoDup (lo hi : Z) : NoDup (Py.range2 lo hi).
Proof.
  unfold Py.range2. apply NoDup_map_injective; [|apply seq_NoDup].
  intros a b H. lia.
Qed.

(** X4. The titles of a table are pairwise distinct, whatever the generic
    name, and there are as many as the column count says, none when the
    count is zero or negative. *)
Theorem get_table_title_distinct (number_of_columns : Z)
  (title_generic_name : string) :
  NoDup (get_table_title number_of_columns title_generic_name)
  /\ List.length (get_table_title number_of_columns title_generic_name)
     = Z.to_nat number_of_columns.
Proof.
  unfold get_table_title. split.
  - apply NoDup_map_injective; [|apply range2_NoDup].
    intros a b H. apply append_injective in H. now apply str_injective.
  - now rewrite length_map, range_length.
Qed.

(** X5. The cells of a table of [n >= 1] columns fit in the 15 cm of the
    table: [n] times the width does not exceed 15, one more centimetre
    per cell would, and from 16 columns on the width is 0. *)
Theorem cell_width_fits (number_of_columns : Z) :
  1 <= number_of_columns ->
  exists width,
    cell_width 15 number_of_columns = Some width
    /\ 0 <= width <= 15
    /\ width * number_of_columns <= 15 < (width + 1) * number_of_columns
    /\ (width = 0 <-> 15 < number_of_columns).
Proof.
  intros Hn. exists (15 / number_of_columns).
  split; [apply cell_width_positive; lia|].
  pose proof (Z.div_mod 15 number_of_columns ltac:(lia)) as Hdm.
  pose proof (Z.mod_pos_bound 15 number_of_columns ltac:(lia)) as Hmod.
  assert (Hq : 0 <= 15 / number_of_columns) by (apply Z.div_pos; lia).
  repeat split; nia.
Qed.

Lemma cell_width_fits_witness :
  1 <= 4
  /\ exists width,
       cell_width 15 4 = Some width
       /\ 0 <= width <= 15
       /\ width * 4 <= 15 < (width + 1) * 4
       /\ (width = 0 <-> 15 < 4).
Proof.
  split; [lia | apply (cell_width_fits 4); lia].
Defined.

(** ** What [generate_tex_code] draws and returns *)

Lemma join_no_underscore (sep : string) (l : list string) :
  Py.mem_char "_" sep = false ->
  Forall (fun s => Py.mem_char "_" s = false) l ->
  Py.mem_char "_" (Py.join sep l) = false.
Proof.
  intros Hsep Hl. induction Hl as [|s l Hs Hl IH]; [reflexivity|].
  destruct l as [|t l]; [exact Hs|].
  change (Py.join sep (s :: t :: l)) with (s ++ sep ++ Py.join sep (t :: l)).
  now rewrite !mem_char_append, Hs, Hsep, IH.
Qed.

Section Document.

Context {E : Externals}.

(** X6. [generate_tex_code] draws exactly two paragraphs before anything
    else and touches nothing but the generator; it raises
    [ZeroDivisionError] exactly when the title row is empty, and then the
    two paragraphs have been drawn all the same. *)
Theorem generate_tex_code_draws_two_paragraphs
  (table_data : list (list string)) (table_title_data : list string)
  (w : World E) :
  let g2 := snd (unfold_n lorem_paragraph 2 (rng w)) in
  exists outcome,
    generate_tex_code table_data table_title_data w = (outcome, with_rng w g2)
    /\ match table_title_data with
       | [] => outcome = Raise ZeroDivisionError
       | _ :: _ => exists document, outcome = Return document
       end.
Proof.
  cbv zeta. rewrite generate_tex_code_run. cbv zeta.
  assert (Hg : snd (unfold_n lorem_paragraph 2 (rng w))
               = snd (lorem_paragraph (snd (lorem_paragraph (rng w))))).
  { cbn [unfold_n]. destruct (lorem_paragraph (rng w)) as [tb g1].
    cbn [snd]. now destruct (lorem_paragraph g1). }
  rewrite Hg. unfold with_rng.
  destruct table_title_data as [|t title].
  - eexists. split; reflexivity.
  - rewrite (cell_width_positive 15 (Py.len (t :: title)))
      by (try apply len_nonempty; easy).
    eexists. split; [reflexivity|]. eexists. reflexivity.
Qed.

(** The document in full, with the two paragraphs named. *)
Lemma generate_tex_code_text (table_data : list (list string))
  (table_title_data : list string) (w : World E) :
  table_title_data <> [] ->
  let n := Py.len table_title_data in
  let title_line := Py.join CELL_SEPARATOR table_title_data in
  let text_before := fst (lorem_paragraph (rng w)) in
  let text_after := fst (lorem_paragraph (snd (lorem_paragraph (rng w)))) in
  exists opening header w',
    generate_tex_code table_data table_title_data w
    = (Return
         (DOCUMENT_HEAD ++ nl ++ opening ++ nl ++ nl
          ++ table_text ("\begin{tabular}{" ++ schema_for n ++ "}") "\hline"
               header
               (terminated
                  (map (later_passes (schema_for n) title_line text_after)
                       (row_lines table_data)))
               ("\end{tabular}" ++ nl ++ nl ++ text_after ++ nl
                ++ "\end{document}")),
       w')
    /\ (Py.mem_char "_" text_before = false -> opening = text_before)
    /\ (Py.mem_char "_" title_line = false ->
        header = title_line ++ "\\ \hline").
Proof.
  intros Hne n title_line text_before text_after.
  rewrite generate_tex_code_run. cbv zeta.
  fold n. rewrite (cell_width_positive 15 n) by (try apply len_nonempty; easy).
  fold (schema_for n). fold title_line. fold text_before. fold text_after.
  rewrite (tex_table_shape (schema_for n) title_line table_data
             (schema_no_underscore n)).
  rewrite tex_document_shape. rewrite map_map.
  rewrite (replace_placeholder_absent TEXT_AFTER_TABLE _
             ("\begin{tabular}{" ++ schema_for n ++ "}")).
  2: reflexivity.
  2: { cbn [append Py.mem_char]. rewrite mem_char_append, schema_no_underscore.
       reflexivity. }
  eexists _, _, _. split; [reflexivity|]. split.
  - intros Htb.
    rewrite (replace_placeholder_absent TABLE _ _ eq_refl Htb).
    apply (replace_placeholder_absent TEXT_AFTER_TABLE _ _ eq_refl Htb).
  - intros Htitle.
    apply (replace_placeholder_absent TEXT_AFTER_TABLE _ _ eq_refl).
    now rewrite mem_char_append, Htitle.
Qed.

(** X7. When neither the cells, nor the titles, nor the opening paragraph
    hold an underscore, the document is the patterns filled in as they
    read: the head, the opening paragraph, the table with its schema, the
    title line, every row line with its terminator, and the closing
    paragraph.  The closing paragraph may hold anything. *)
Theorem generate_tex_code_fills_patterns (table_data : list (list string))
  (table_title_data : list string) (w : World E) :
  table_title_data <> [] ->
  Forall (fun cell => Py.mem_char "_" cell = false) table_title_data ->
  Forall (Forall (fun cell => Py.mem_char "_" cell = false)) table_data ->
  Py.mem_char "_" (fst (lorem_paragraph (rng w))) = false ->
  let text_before := fst (lorem_paragraph (rng w)) in
  let text_after := fst (lorem_paragraph (snd (lorem_paragraph (rng w)))) in
  exists w',
    generate_tex_code table_data table_title_data w
    = (Return
         (DOCUMENT_HEAD ++ nl ++ text_before ++ nl ++ nl
          ++ "\begin{tabular}{" ++ schema_for (Py.len table_title_data) ++ "}"
          ++ nl ++ "\hline" ++ nl
          ++ Py.join CELL_SEPARATOR table_title_data ++ "\\ \hline" ++ nl
          ++ terminated (row_lines table_data)
          ++ "\end{tabular}" ++ nl ++ nl ++ text_after ++ nl
          ++ "\end{document}"),
       w').
Proof.
  intros Hne Htitle Htable Htb text_before text_after.
  destruct (generate_tex_code_text table_data table_title_data w Hne)
    as (opening & header & w' & Hrun & Hopening & Hheader).
  assert (Hlines : Forall (fun line => Py.mem_char "_" line = false)
                          (row_lines table_data)).
  { destruct table_data as [|row rows]; [repeat constructor|].
    unfold row_lines. apply Forall_map.
    eapply Forall_impl; [|exact Htable]. intros r Hr.
    now apply join_no_underscore. }
  assert (Hmap : map (later_passes (schema_for (Py.len table_title_data))
                        (Py.join CELL_SEPARATOR table_title_data) text_after)
                     (row_lines table_data)
                 = row_lines table_data).
  { revert Hlines. generalize (row_lines table_data) as lines.
    induction 1 as [|line lines Hline _ IH]; [reflexivity|].
    cbn [map]. rewrite IH. f_equal. unfold later_passes.
    rewrite (replace_placeholder_absent TABLE_SCHEMA _ _ eq_refl Hline).
    rewrite (replace_placeholder_absent TABLE_TITLE _ _ eq_refl Hline).
    apply (replace_placeholder_absent TEXT_AFTER_TABLE _ _ eq_refl Hline). }
  exists w'. rewrite Hrun, (Hopening Htb), Hheader.
  2: { now apply join_no_underscore. }
  fold text_after. rewrite Hmap. unfold table_text.
  now rewrite !append_assoc.
Qed.

(** X8. Whatever the cells, the titles and the paragraphs hold, the
    document of a table with a title row starts with the head of the
    document pattern and ends with the end of the table, the closing
    paragraph as drawn, and the end of the document. *)
Theorem generate_tex_code_frames_document (table_data : list (list string))
  (table_title_data : list string) (w : World E) :
  table_title_data <> [] ->
  let text_after := fst (lorem_paragraph (snd (lorem_paragraph (rng w)))) in
  exists middle w',
    generate_tex_code table_data table_title_data w
    = (Return
         (DOCUMENT_HEAD ++ nl ++ middle
          ++ "\end{tabular}" ++ nl ++ nl ++ text_after ++ nl
          ++ "\end{document}"),
       w').
Proof.
  intros Hne text_after.
  destruct (generate_tex_code_text table_data table_title_data w Hne)
    as (opening & header & w' & Hrun & _ & _).
  exists (opening ++ nl ++ nl
          ++ ("\begin{tabular}{" ++ schema_for (Py.len table_title_data) ++ "}")
          ++ nl ++ "\hline" ++ nl ++ header ++ nl
          ++ terminated
               (map (later_passes (schema_for (Py.len table_title_data))
                       (Py.join CELL_SEPARATOR table_title_data) text_after)
                    (row_lines table_data))), w'.
  rewrite Hrun. unfold table_text. now rewrite !append_assoc.
Qed.

End Document.

Lemma generate_tex_code_fills_patterns_witness :
  exists w',
    generate_tex_code [["a"; "b"]; ["c"; "d"]] ["title0"; "title1"] demo_world
    = (Return
         (DOCUMENT_HEAD ++ nl ++ "Ipsum 0." ++ nl ++ nl
          ++ "\begin{tabular}{" ++ schema_for 2 ++ "}"
          ++ nl ++ "\hline" ++ nl
          ++ "title0 & title1" ++ "\\ \hline" ++ nl
          ++ terminated ["a & b"; "c & d"]
          ++ "\end{tabular}" ++ nl ++ nl ++ "Ipsum 1." ++ nl
          ++ "\end{document}"),
       w').
Proof.
  apply (@generate_tex_code_fills_patterns demo [["a"; "b"]; ["c"; "d"]]
           ["title0"; "title1"] demo_world).
  - discriminate.
  - repeat constructor.
  - repeat constructor.
  - reflexivity.
Defined.

Lemma generate_tex_code_frames_document_witness :
  exists middle w',
    generate_tex_code [["_TABLE_TITLE"]] ["title0"] demo_world
    = (Return
         (DOCUMENT_HEAD ++ nl ++ middle
          ++ "\end{tabular}" ++ nl ++ nl ++ "Ipsum 1." ++ nl
          ++ "\end{document}"),
       w').
Proof.
  apply (@generate_tex_code_frames_document demo [["_TABLE_TITLE"]]
           ["title0"] demo_world).
  discriminate.
Defined.

(** ** The paths of the files *)

Lemma split_underscore (a b x y : string) :
  Py.mem_char "_" a = false -> Py.mem_char "_" b = false ->
  a ++ String "_" x = b ++ String "_" y -> a = b /\ x = y.
Proof.
  revert b. induction a as [|c a IH]; intros [|d b] Ha Hb H.
  - now injection H.
  - simpl in H, Hb. injection H as <- _. discriminate.
  - simpl in H, Ha. injection H as -> _. discriminate.
  - simpl in H, Ha, Hb. injection H as -> H.
    apply orb_false_iff in Ha as [_ Ha]. apply orb_false_iff in Hb as [_ Hb].
    destruct (IH b Ha Hb H) as [-> ->]. now split.
Qed.

Lemma artifact_path_injective (r_c c_c : Z) (filling : bool)
  (r_c' c_c' : Z) (filling' : bool) (e e' : string) :
  file_path_of r_c c_c filling ++ e = file_path_of r_c' c_c' filling' ++ e' ->
  r_c = r_c' /\ c_c = c_c'
  /\ Py.str_bool filling ++ e = Py.str_bool filling' ++ e'.
Proof.
  unfold file_path_of. rewrite !append_assoc. intros H.
  do 3 apply append_injective in H.
  apply (split_underscore (Py.str r_c) (Py.str r_c') _ _
           (str_no_underscore r_c) (str_no_underscore r_c')) in H.
  destruct H as [Hr H]. apply str_injective in Hr.
  apply (split_underscore (Py.str c_c) (Py.str c_c') _ _
           (str_no_underscore c_c) (str_no_underscore c_c')) in H.
  destruct H as [Hc H]. apply str_injective in Hc. auto.
Qed.

(** X9. Two combinations of row count, column count and filling mode never
    share a file: a path among the two of one combination and among the
    two of another makes the combinations the same.  The two files of a
    combination differ. *)
Theorem artifact_paths_disjoint (r_c c_c : Z) (filling : bool)
  (r_c' c_c' : Z) (filling' : bool) (path : string) :
  In path (artifact_paths r_c c_c filling) ->
  In path (artifact_paths r_c' c_c' filling') ->
  r_c = r_c' /\ c_c = c_c' /\ filling = filling'
  /\ NoDup (artifact_paths r_c c_c filling).
Proof.
  unfold artifact_paths. intros H H'.
  assert (Hsame : r_c = r_c' /\ c_c = c_c' /\ filling = filling').
  { simpl in H, H'.
    destruct H as [H | [H | []]]; destruct H' as [H' | [H' | []]];
      rewrite <- H' in H; apply artifact_path_injective in H;
      destruct H as (Hr & Hc & Hf); repeat split; try assumption;
      destruct filling, filling'; simpl in Hf; congruence. }
  destruct Hsame as (Hr & Hc & Hf). repeat split; try assumption.
  constructor; [|constructor; [easy | constructor]].
  simpl. intros [Heq | []].
  apply artifact_path_injective in Heq. destruct Heq as (_ & _ & Hf').
  destruct filling; simpl in Hf'; discriminate.
Qed.

Lemma artifact_paths_disjoint_witness :
  2 = 2 /\ 3 = 3 /\ true = true /\ NoDup (artifact_paths 2 3 true).
Proof.
  apply (artifact_paths_disjoint 2 3 true 2 3 true "./tables/2_3_True.csv").
  - simpl. auto.
  - simpl. auto.
Defined.

(** ** One combination of the sweep *)

Lemma unfold_n_rows_length {S A : Type} (step : S -> A * S) (n m : nat)
  (s : S) :
  Forall (fun row => List.length row = n)
         (fst (unfold_n (unfold_n step n) m s)).
Proof.
  revert s. induction m as [|m IH]; intros s; [constructor|].
  cbn [unfold_n]. pose proof (unfold_n_fst_length step n s) as Hrow.
  destruct (unfold_n step n s) as [row s1]. specialize (IH s1).
  destruct (unfold_n (unfold_n step n) m s1) as [rows s2].
  now constructor.
Qed.




Section Combination.

Context {E : Externals}.

(** [generate_data] returns a table of the asked dimensions and touches
    neither the directories nor the files. *)
Lemma generate_data_frame (rows cols : Z) (filling : bool) (w : World E) :
  exists table w1,
    generate_data rows cols filling w = (Return table, w1)
    /\ List.length table = Z.to_nat rows
    /\ Forall (fun row => List.length row = Z.to_nat cols) table
    /\ dirs w1 = dirs w /\ written w1 = written w.
Proof.
  destruct filling.
  - rewrite (generate_data_unfold true
               (fun w => (fst (lorem_sentence (rng w)),
                          with_rng w (snd (lorem_sentence (rng w)))))
               sentence_step).
    rewrite (unfold_n_ext _ _ (unfold_n_rng lorem_sentence (Z.to_nat cols))).
    rewrite (unfold_n_rng (unfold_n lorem_sentence (Z.to_nat cols))).
    eexists _, _. split; [reflexivity|]. cbn [fst].
    repeat split; [apply unfold_n_fst_length | apply unfold_n_rows_length].
  - rewrite (generate_data_unfold false
               (fun w => (fst (timestamp (clock w)),
                          with_clock w (snd (timestamp (clock w)))))
               timestamp_step).
    rewrite (unfold_n_ext _ _ (unfold_n_clock timestamp (Z.to_nat cols))).
    rewrite (unfold_n_clock (unfold_n timestamp (Z.to_nat cols))).
    eexists _, _. split; [reflexivity|]. cbn [fst].
    repeat split; [apply unfold_n_fst_length | apply unfold_n_rows_length].
Qed.

Lemma generate_tex_code_frame (table_data : list (list string))
  (table_title_data : list string) (w : World E) :
  table_title_data <> [] ->
  exists document w',
    generate_tex_code table_data table_title_data w = (Return document, w')
    /\ dirs w' = dirs w /\ written w' = written w.
Proof.
  intros Hne. rewrite generate_tex_code_run. cbv zeta.
  rewrite (cell_width_positive 15 (Py.len table_title_data))
    by (try apply len_nonempty; easy).
  eexists _, _. repeat split.
Qed.

(** The loop body up to the call of the compiler. *)
Lemma iteration_until_compile (r_c c_c : Z) (filling : bool) (w : World E) :
  0 <= r_c -> 1 <= c_c ->
  exists table_data tex_code w2 w3,
    Py.len table_data = r_c
    /\ Forall (fun row => Py.len row = c_c) table_data
    /\ generate_tex_code table_data (get_table_title c_c "title") w2
       = (Return tex_code, w3)
    /\ dirs w3 = ensure_directory (dirs w)
    /\ written w3 = written w
    /\ iteration r_c c_c filling w
       = bind (compile_pdf tex_code)
           (fun pdf =>
              bind (write_file (file_path_of r_c c_c filling ++ ".pdf")
                               (PdfData pdf))
                (fun _ =>
                   write_file (file_path_of r_c c_c filling ++ ".csv")
                     (TextData (csv_text (get_table_title c_c "title")
                                         table_data))))
           w3.
Proof.
  intros Hr Hc. unfold iteration.
  destruct (generate_data_frame r_c c_c filling w)
    as (table_data & w1 & Hdata & Hrows & Hcols & Hd1 & Hw1).
  rewrite (bind_return _ _ _ _ _ Hdata).
  unfold bind at 1. unfold path_exists.
  set (w2 := snd ((if negb (existsb (String.eqb DIRECTORY_NAME) (dirs w1))
                   then makedirs DIRECTORY_NAME else ret tt) w1)).
  assert (Hdirs : (if negb (existsb (String.eqb DIRECTORY_NAME) (dirs w1))
                   then makedirs DIRECTORY_NAME else ret tt) w1
                  = (Return tt, w2)
                  /\ written w2 = written w1
                  /\ dirs w2 = ensure_directory (dirs w1)).
  { unfold w2, ensure_directory.
    destruct (existsb (String.eqb DIRECTORY_NAME) (dirs w1));
      repeat split; reflexivity. }
  destruct Hdirs as (Hdirs & Hw2 & Hd2).
  rewrite (bind_return _ _ _ _ _ Hdirs).
  destruct (generate_tex_code_frame table_data (get_table_title c_c "title")
              w2 (get_table_title_nonempty c_c "title" Hc))
    as (tex_code & w3 & Htex & Hd3 & Hw3).
  rewrite (bind_return _ _ _ _ _ Htex).
  exists table_data, tex_code, w2, w3.
  repeat split; try assumption.
  - unfold Py.len. lia.
  - eapply Forall_impl; [|exact Hcols]. cbv beta. intros row Hrow.
    unfold Py.len. lia.
  - congruence.
  - congruence.
Qed.

(** The directory check of the loop body. *)
Lemma ensure_step (w : World E) :
  (if negb (existsb (String.eqb DIRECTORY_NAME) (dirs w))
   then makedirs DIRECTORY_NAME else ret tt) w
  = (Return tt, directory_ensured w).
Proof.
  destruct w as [g c ds log].
  unfold directory_ensured, ensure_directory, makedirs, ret.
  cbn [rng clock dirs written].
  destruct (existsb (String.eqb DIRECTORY_NAME) ds); reflexivity.
Qed.

(** The loop body as one equation: what is handed to the compiler, and
    what follows from the compiler's answer. *)
Lemma iteration_run (r_c c_c : Z) (filling : bool) (w : World E) :
  1 <= c_c ->
  exists table_data tex_code w3,
    prepared r_c c_c filling w table_data tex_code w3
    /\ iteration r_c c_c filling w
       = match build_pdf tex_code with
         | Some pdf =>
             (Return tt,
              logged w3 (combination_files r_c c_c filling table_data pdf))
         | None => (Raise LatexBuildError, w3)
         end.
Proof.
  intros Hc. unfold iteration.
  destruct (generate_data_frame r_c c_c filling w)
    as (table_data & w1 & Hdata & _).
  rewrite (bind_return _ _ _ _ _ Hdata).
  unfold bind at 1. unfold path_exists.
  rewrite (bind_return _ _ _ _ _ (ensure_step w1)).
  destruct (generate_tex_code_frame table_data (get_table_title c_c "title")
              (directory_ensured w1)
              (get_table_title_nonempty c_c "title" Hc))
    as (tex_code & w3 & Htex & _).
  rewrite (bind_return _ _ _ _ _ Htex).
  exists table_data, tex_code, w3. split; [now exists w1|].
  unfold compile_pdf.
  destruct (build_pdf tex_code) as [pdf|]; [|reflexivity].
  unfold bind, ret, write_file, logged, combination_files.
  cbn [rng clock dirs written]. now rewrite <- app_assoc.
Qed.

(** What is handed to the compiler is determined by the state the
    combination starts in. *)
Lemma prepared_unique (r_c c_c : Z) (filling : bool) (w : World E)
  (table_data table_data' : list (list string)) (tex_code tex_code' : string)
  (w3 w3' : World E) :
  prepared r_c c_c filling w table_data tex_code w3 ->
  prepared r_c c_c filling w table_data' tex_code' w3' ->
  table_data' = table_data /\ tex_code' = tex_code /\ w3' = w3.
Proof.
  intros (w1 & Hdata & Htex) (w1' & Hdata' & Htex').
  rewrite Hdata in Hdata'. injection Hdata' as <- <-.
  rewrite Htex in Htex'. injection Htex' as <- <-. auto.
Qed.

(** Up to the call of the compiler only the directory is touched. *)
Lemma prepared_frame (r_c c_c : Z) (filling : bool) (w : World E)
  (table_data : list (list string)) (tex_code : string) (w3 : World E) :
  prepared r_c c_c filling w table_data tex_code w3 ->
  dirs w3 = ensure_directory (dirs w) /\ written w3 = written w.
Proof.
  intros (w1 & Hdata & Htex).
  destruct (generate_data_frame r_c c_c filling w)
    as (table' & w1' & Hdata' & _ & _ & Hd1 & Hw1).
  rewrite Hdata in Hdata'. injection Hdata' as <- <-.
  rewrite generate_tex_code_run in Htex. cbv zeta in Htex.
  destruct (cell_width 15 (Py.len (get_table_title c_c "title")));
    [|discriminate].
  injection Htex as _ <-. cbn [dirs written directory_ensured].
  now rewrite Hd1, Hw1.
Qed.

(** The table handed on has the dimensions of the combination. *)
Lemma prepared_shape (r_c c_c : Z) (filling : bool) (w : World E)
  (table_data : list (list string)) (tex_code : string) (w3 : World E) :
  0 <= r_c -> 0 <= c_c ->
  prepared r_c c_c filling w table_data tex_code w3 ->
  Py.len table_data = r_c
  /\ Forall (fun row => Py.len row = c_c) table_data.
Proof.
  intros Hr Hc (w1 & Hdata & _).
  destruct (generate_data_frame r_c c_c filling w)
    as (table' & w1' & Hdata' & Hrows & Hcols & _).
  rewrite Hdata in Hdata'. injection Hdata' as <- <-.
  split; [unfold Py.len; lia|].
  eapply Forall_impl; [|exact Hcols]. cbv beta. intros row Hrow.
  unfold Py.len. lia.
Qed.


End Combination.


(** ** The sweep as a chain of combinations *)

Lemma firstn_length_app {A : Type} (l l' : list A) :
  firstn (List.length l) (l ++ l')%list = l.
Proof. induction l as [|x l IH]; [reflexivity|]. simpl. now rewrite IH. Qed.

Lemma flat_map_named_length (l : list (Z * Z * bool)) :
  List.length (flat_map named_files l) = (2 * List.length l)%nat.
Proof.
  induction l as [|[[r c] f] l IH]; [reflexivity|].
  cbn [flat_map named_files List.length app]. rewrite IH. lia.
Qed.

Lemma combination_eq_dec (p q : Z * Z * bool) : {p = q} + {p <> q}.
Proof. repeat decide equality. Defined.

Lemma sweep_combinations_NoDup : NoDup sweep_combinations.
Proof.
  assert (H : nodup combination_eq_dec sweep_combinations
              = sweep_combinations) by (vm_compute; reflexivity).
  rewrite <- H. apply NoDup_nodup.
Qed.

Lemma sweep_files_NoDup : NoDup sweep_files.
Proof.
  assert (H : nodup string_dec sweep_files = sweep_files)
    by (vm_compute; reflexivity).
  rewrite <- H. apply NoDup_nodup.
Qed.

Section Chain.

Context {E : Externals}.

(** A loop over a list in two parts is the loop over the first part and
    then, unless it raised, the loop over the second. *)
Lemma for_in_app {X : Type} (body : X -> M E unit) (xs ys : list X)
  (w : World E) :
  for_in (xs ++ ys)%list tt (fun _ x => body x) w
  = bind (for_in xs tt (fun _ x => body x))
         (fun _ => for_in ys tt (fun _ x => body x)) w.
Proof.
  revert w. induction xs as [|x xs IH]; intros w; [reflexivity|].
  cbn [app for_in]. unfold bind.
  destruct (body x w) as [[[]|e] w1]; [|reflexivity].
  rewrite IH. reflexivity.
Qed.

(** Nested loops are one loop over the elements of the inner lists. *)
Lemma for_in_flat_map {X P : Type} (f : X -> list P) (body : P -> M E unit)
  (xs : list X) (w : World E) :
  for_in xs tt (fun _ x => for_in (f x) tt (fun _ p => body p)) w
  = for_in (flat_map f xs) tt (fun _ p => body p) w.
Proof.
  revert w. induction xs as [|x xs IH]; intros w; [reflexivity|].
  cbn [flat_map for_in]. rewrite for_in_app. unfold bind.
  destruct (for_in (f x) tt (fun _ p => body p) w) as [[[]|e] w1];
    [apply IH | reflexivity].
Qed.

Lemma for_in_ext {X : Type} (body body' : X -> M E unit) (xs : list X) :
  (forall x w, body x w = body' x w) ->
  forall w, for_in xs tt (fun _ x => body x) w
            = for_in xs tt (fun _ x => body' x) w.
Proof.
  intros Hext. induction xs as [|x xs IH]; intros w; [reflexivity|].
  cbn [for_in]. unfold bind. rewrite Hext.
  destruct (body' x w) as [[[]|e] w1]; [apply IH | reflexivity].
Qed.

(** [main] is one loop over the combinations of the sweep. *)
Lemma main_flat (w : World E) :
  main w
  = for_in sweep_combinations tt
      (fun _ p => iteration (fst (fst p)) (snd (fst p)) (snd p)) w.
Proof.
  unfold main, sweep_combinations.
  change (Py.range2 ROW_COUNT_MIN ROW_COUNT_MAX)
    with [2; 3; 4; 5; 6; 7; 8; 9].
  change (Py.range2 COLUMNS_COUNT_MIN COLUMNS_COUNT_MAX)
    with [2; 3; 4; 5; 6; 7].
  rewrite <- (for_in_flat_map
                (fun r_c =>
                   flat_map (fun c_c => map (fun filling => (r_c, c_c, filling))
                                            [true; false])
                            [2; 3; 4; 5; 6; 7])
                (fun p => iteration (fst (fst p)) (snd (fst p)) (snd p))).
  apply (for_in_ext
           (fun r_c =>
              for_in [2; 3; 4; 5; 6; 7] tt
                (fun _ c_c =>
                   for_in [true; false] tt
                     (fun _ filling => iteration r_c c_c filling)))).
  intros r_c w1.
  rewrite <- (for_in_flat_map
                (fun c_c => map (fun filling => (r_c, c_c, filling))
                                [true; false])
                (fun p => iteration (fst (fst p)) (snd (fst p)) (snd p))).
  reflexivity.
Qed.

(** A loop stops where its body raises first. *)
Lemma for_in_raise {X S : Type} (body : S -> X -> M E S) (x : X)
  (xs : list X) (acc : S) (w w' : World E) (e : exn) :
  body acc x w = (Raise e, w') ->
  for_in (x :: xs) acc body w = (Raise e, w').
Proof. intros H. cbn [for_in]. now apply bind_raise. Qed.

(** A loop whose body returns or raises [LatexBuildError] goes through
    the steps of its elements up to the first one that raises. *)
Lemma for_in_trace {X : Type} (body : X -> M E unit)
  (ok bad : X -> World E -> World E -> Prop) (xs : list X) :
  (forall x, In x xs -> forall w,
     (exists w', body x w = (Return tt, w') /\ ok x w w')
     \/ (exists w', body x w = (Raise LatexBuildError, w') /\ bad x w w')) ->
  forall w, exists done rest wk,
    xs = (done ++ rest)%list
    /\ chain ok done w wk
    /\ match rest with
       | [] => for_in xs tt (fun _ x => body x) w = (Return tt, wk)
       | x :: _ =>
           exists w', bad x wk w'
             /\ for_in xs tt (fun _ x => body x) w
                = (Raise LatexBuildError, w')
       end.
Proof.
  induction xs as [|x xs IH]; intros Hbody w.
  - exists [], [], w. repeat split.
  - destruct (Hbody x (or_introl eq_refl) w)
      as [(w1 & Hx & Hok) | (w1 & Hx & Hbad)].
    + destruct (IH (fun y Hy => Hbody y (or_intror Hy)) w1)
        as (done & rest & wk & Hsplit & Hchain & Hrest).
      exists (x :: done), rest, wk.
      split; [now rewrite Hsplit|]. split; [now exists w1|].
      cbn [for_in]. rewrite (bind_return _ _ _ _ _ Hx). exact Hrest.
    + exists [], (x :: xs), w. split; [reflexivity|].
      split; [reflexivity|]. exists w1. split; [exact Hbad|].
      now apply for_in_raise.
Qed.

(** The sweep: the combinations that compiled, in order, and then either
    the end of the sweep or the combination whose document the compiler
    rejected. *)
Lemma main_trace (w : World E) :
  exists done rest wk,
    sweep_combinations = (done ++ rest)%list
    /\ chain combination_succeeds done w wk
    /\ match rest with
       | [] => main w = (Return tt, wk)
       | p :: _ =>
           exists w', combination_fails p wk w'
             /\ main w = (Raise LatexBuildError, w')
       end.
Proof.
  destruct (for_in_trace
              (fun p => iteration (fst (fst p)) (snd (fst p)) (snd p))
              combination_succeeds combination_fails sweep_combinations)
    with (w := w) as (done & rest & wk & Hsplit & Hchain & Hrest).
  - intros [[r_c c_c] filling] Hin w0. apply in_sweep_combinations in Hin.
    cbn [fst snd].
    assert (Hc : 1 <= c_c) by lia.
    destruct (iteration_run r_c c_c filling w0 Hc)
      as (table_data & tex_code & w3 & Hprep & Hrun).
    rewrite Hrun. destruct (build_pdf tex_code) as [pdf|] eqn:Hpdf.
    + left. eexists. split; [reflexivity|].
      exists table_data, tex_code, pdf, w3. auto.
    + right. eexists. split; [reflexivity|].
      exists table_data, tex_code. auto.
  - exists done, rest, wk. split; [exact Hsplit|]. split; [exact Hchain|].
    destruct rest as [|p rest]; rewrite main_flat; exact Hrest.
Qed.

(** What a combination that compiled leaves behind. *)
Lemma succeeds_inv (r_c c_c : Z) (filling : bool) (w w' : World E) :
  combination_succeeds (r_c, c_c, filling) w w' ->
  exists table_data tex_code pdf w2 w3,
    generate_tex_code table_data (get_table_title c_c "title") w2
    = (Return tex_code, w3)
    /\ build_pdf tex_code = Some pdf
    /\ written w'
       = (written w ++ combination_files r_c c_c filling table_data pdf)%list
    /\ dirs w' = ensure_directory (dirs w)
    /\ (0 <= r_c -> 0 <= c_c ->
        Py.len table_data = r_c
        /\ Forall (fun row => Py.len row = c_c) table_data).
Proof.
  intros (table_data & tex_code & pdf & w3 & Hprep & Hpdf & ->).
  destruct (prepared_frame _ _ _ _ _ _ _ Hprep) as [Hd Hw].
  pose proof (fun Hr Hc => prepared_shape _ _ _ _ _ _ _ Hr Hc Hprep)
    as Hshape.
  destruct Hprep as (w1 & Hdata & Htex).
  exists table_data, tex_code, pdf, (directory_ensured w1), w3.
  split; [exact Htex|]. split; [exact Hpdf|].
  cbn [logged written dirs]. rewrite Hw. auto.
Qed.

(** The names of the files a chain of combinations adds to the log. *)
Lemma chain_names (done : list (Z * Z * bool)) (w wk : World E) :
  chain combination_succeeds done w wk ->
  map fst (written wk)
  = (map fst (written w) ++ flat_map named_files done)%list.
Proof.
  revert w. induction done as [|[[r_c c_c] filling] done IH];
    intros w Hchain.
  - simpl in Hchain. subst. simpl. now rewrite app_nil_r.
  - destruct Hchain as (w1 & Hstep & Hrest).
    apply succeeds_inv in Hstep
      as (table_data & tex_code & pdf & w2 & w3 & _ & _ & Hw & _).
    rewrite (IH w1 Hrest), Hw, map_app, <- app_assoc.
    cbn [flat_map]. rewrite <- artifact_paths_named. reflexivity.
Qed.


(** C8. The sweep of [main] goes through the combinations of row count
    2 to 9, column count 2 to 7 and both filling modes, 96 in all, each
    once, in the order of the loops, and through no other.  For each
    combination whose document compiles it writes the [.pdf] and then the
    [.csv] at [./tables/{row_count}_{column_count}_{filling}].  A run
    returns exactly when every document it hands to the compiler
    compiles, and the names of the files added to the log are then the
    192 names of [sweep_files], in that order; a run in which the
    compiler rejects the document of a combination raises
    [LatexBuildError] there, having added the files of the combinations
    before it and no other. *)
Theorem main_writes_sweep (w : World E) :
  exists done rest wk,
    sweep_combinations = (done ++ rest)%list
    /\ chain combination_succeeds done w wk
    /\ match rest with
       | [] =>
           main w = (Return tt, wk)
           /\ map fst (written wk)
              = (map fst (written w) ++ sweep_files)%list
       | p :: _ =>
           exists w',
             combination_fails p wk w'
             /\ main w = (Raise LatexBuildError, w')
             /\ map fst (written w')
                = (map fst (written w)
                   ++ firstn (2 * List.length done) sweep_files)%list
       end
    /\ (forall r_c c_c filling,
          In (r_c, c_c, filling) sweep_combinations
          <-> 2 <= r_c <= 9 /\ 2 <= c_c <= 7)
    /\ NoDup sweep_combinations
    /\ List.length sweep_combinations = 96%nat
    /\ sweep_files = flat_map named_files sweep_combinations
    /\ (forall r_c c_c filling,
          artifact_paths r_c c_c filling = named_files (r_c, c_c, filling))
    /\ NoDup sweep_files
    /\ List.length sweep_files = 192%nat.
Proof.
  destruct (main_trace w) as (done & rest & wk & Hsplit & Hchain & Hrest).
  exists done, rest, wk. split; [exact Hsplit|]. split; [exact Hchain|].
  split; [|split; [exact in_sweep_combinations|];
           split; [exact sweep_combinations_NoDup|];
           split; [reflexivity|]; split; [reflexivity|];
           split; [exact artifact_paths_named|];
           split; [exact sweep_files_NoDup | reflexivity]].
  pose proof (chain_names done w wk Hchain) as Hnames.
  destruct rest as [|[[r_c c_c] filling] rest].
  - split; [exact Hrest|]. rewrite Hnames, sweep_files_named, Hsplit.
    now rewrite app_nil_r.
  - destruct Hrest as (w' & Hfail & Hmain). exists w'.
    split; [exact Hfail|]. split; [exact Hmain|].
    destruct Hfail as (table_data & tex_code & Hprep & _).
    destruct (prepared_frame _ _ _ _ _ _ _ Hprep) as [_ Hw].
    rewrite Hw, Hnames, sweep_files_named, Hsplit, flat_map_app.
    now rewrite <- flat_map_named_length, firstn_length_app.
Qed.

(** X11. When the compiler fails on every document, [main] stops at the
    first combination: it raises [LatexBuildError], no file has been
    written, and the directory has been made sure of. *)
Theorem main_stops_at_failed_compile (w : World E) :
  (forall tex, build_pdf tex = None) ->
  exists w',
    main w = (Raise LatexBuildError, w')
    /\ written w' = written w
    /\ dirs w' = ensure_directory (dirs w).
Proof.
  intros Hbuild.
  destruct (iteration_until_compile 2 2 true w ltac:(lia) ltac:(lia))
    as (table_data & tex_code & wa & wb & _ & _ & _ & Hd & Hw & Hrun).
  exists wb. split; [|split; assumption].
  unfold main.
  change (Py.range2 ROW_COUNT_MIN ROW_COUNT_MAX)
    with [2; 3; 4; 5; 6; 7; 8; 9].
  change (Py.range2 COLUMNS_COUNT_MIN COLUMNS_COUNT_MAX)
    with [2; 3; 4; 5; 6; 7].
  apply for_in_raise, for_in_raise, for_in_raise.
  rewrite Hrun. unfold compile_pdf. rewrite Hbuild. reflexivity.
Qed.


End Chain.

Lemma main_writes_sweep_witness :
  exists wk,
    main demo_world = (Return tt, wk)
    /\ map fst (written wk) = sweep_files.
Proof.
  destruct (@main_writes_sweep demo demo_world)
    as (done & rest & wk & _ & _ & Hrest & _).
  destruct rest as [|[[r_c c_c] filling] rest].
  - exists wk. exact Hrest.
  - destruct Hrest as (w' & (table_data & tex_code & _ & Hnone) & _).
    discriminate Hnone.
Defined.

Lemma main_stops_at_failed_compile_witness :
  exists w',
    main demo_broken_world = (Raise LatexBuildError, w')
    /\ written w' = written demo_broken_world
    /\ dirs w' = ensure_directory (dirs demo_broken_world).
Proof.
  apply (@main_stops_at_failed_compile demo_broken demo_broken_world).
  reflexivity.
Defined.


(** ** The files of the sweep *)


Section Files.

Context {E : Externals}.



End Files.


(** ** The lines of the CSV file *)

Lemma mem_char_join (c : ascii) (sep : string) (l : list string) :
  Py.mem_char c sep = false ->
  Forall (fun s => Py.mem_char c s = false) l ->
  Py.mem_char c (Py.join sep l) = false.
Proof.
  intros Hsep Hl. induction Hl as [|s l Hs Hl IH]; [reflexivity|].
  destruct l as [|t l]; [exact Hs|].
  change (Py.join sep (s :: t :: l)) with (s ++ sep ++ Py.join sep (t :: l)).
  now rewrite !mem_char_append, Hs, Hsep, IH.
Qed.

Lemma mem_char_doubled (c : ascii) (f : string) :
  Ascii.eqb c Csv.quotechar = false ->
  Py.mem_char c (Csv.doubled f) = Py.mem_char c f.
Proof.
  intros Hc. induction f as [|x f IH]; [reflexivity|].
  cbn [Csv.doubled]. destruct (Ascii.eqb_spec x Csv.quotechar) as [->|_].
  - cbn [Py.mem_char]. now rewrite Hc, IH.
  - cbn [Py.mem_char]. now rewrite IH.
Qed.

Lemma mem_char_encode (c : ascii) (f : string) :
  Ascii.eqb c Csv.quotechar = false ->
  Py.mem_char c f = false -> Py.mem_char c (Csv.encode f) = false.
Proof.
  intros Hc Hf. unfold Csv.encode, Csv.join_append_data.
  destruct (Csv.has_special f || _); [|exact Hf].
  cbn [Py.mem_char]. rewrite Hc, mem_char_append, mem_char_doubled, Hf by easy.
  cbn [Py.mem_char]. now rewrite Hc.
Qed.

(** A text without a line break, closed by the line terminator, is one
    line. *)
Lemma lines_from_plain (s : string) :
  has_line_break s = false ->
  forall cur rest,
    Csv.lines_from cur (s ++ Csv.lineterminator ++ rest)
    = (cur ++ s ++ Csv.lineterminator) :: Csv.lines_from "" rest.
Proof.
  induction s as [|c s IH]; intros Hs cur rest; [reflexivity|].
  unfold has_line_break in Hs. cbn [Py.mem_char] in Hs.
  apply orb_false_iff in Hs as [Hlf Hcr].
  apply orb_false_iff in Hlf as [Hlf Hlfs].
  apply orb_false_iff in Hcr as [Hcr Hcrs].
  rewrite Ascii.eqb_sym in Hlf. rewrite Ascii.eqb_sym in Hcr.
  cbn [append Csv.lines_from]. rewrite Hlf, Hcr.
  rewrite IH by (unfold has_line_break; now rewrite Hlfs, Hcrs).
  now rewrite append_assoc.
Qed.

Lemma writerow_one_line (row : list string) :
  Forall (fun cell => has_line_break cell = false) row ->
  exists rec,
    Csv.writerow row = rec ++ Csv.lineterminator
    /\ has_line_break rec = false.
Proof.
  intros Hrow. unfold Csv.writerow. cbv zeta.
  destruct ((0 <? List.length row)%nat && _).
  - eexists. split; reflexivity.
  - eexists. split; [reflexivity|]. unfold has_line_break.
    rewrite !mem_char_join; try reflexivity.
    + apply Forall_map. eapply Forall_impl; [|exact Hrow].
      cbv beta. intros cell Hcell. apply mem_char_encode; [reflexivity|].
      unfold has_line_break in Hcell. now apply orb_false_iff in Hcell.
    + apply Forall_map. eapply Forall_impl; [|exact Hrow].
      cbv beta. intros cell Hcell. apply mem_char_encode; [reflexivity|].
      unfold has_line_break in Hcell. now apply orb_false_iff in Hcell.
Qed.

(** X14. When no title and no cell holds a line break, the lines of the
    CSV file are the written rows, one line per row: the title line and
    then a line for every row of the table. *)
Theorem csv_text_one_line_per_row (table_title : list string)
  (table_data : list (list string)) :
  Forall (Forall (fun cell => has_line_break cell = false))
         (table_title :: table_data) ->
  Csv.readlines (csv_text table_title table_data)
  = map Csv.writerow (table_title :: table_data)
  /\ List.length (Csv.readlines (csv_text table_title table_data))
     = S (List.length table_data).
Proof.
  intros Hall.
  assert (Hlines : Csv.readlines (csv_text table_title table_data)
                   = map Csv.writerow (table_title :: table_data)).
  { unfold csv_text, Csv.readlines.
    rewrite CsvRoundTrip.fold_left_rows.
    change (Csv.writerow table_title
            ++ fold_right (fun row text => Csv.writerow row ++ text) ""
                 table_data)
      with (fold_right (fun row text => Csv.writerow row ++ text) ""
              (table_title :: table_data)).
    revert Hall. generalize (table_title :: table_data) as rows.
    induction 1 as [|row rows Hrow _ IH]; [reflexivity|].
    cbn [fold_right map].
    destruct (writerow_one_line row Hrow) as (rec & Heq & Hrec).
    rewrite Heq at 1. rewrite append_assoc, (lines_from_plain rec Hrec).
    cbn [append]. now rewrite IH, Heq. }
  split; [exact Hlines|]. rewrite Hlines, length_map. reflexivity.
Qed.

Lemma csv_text_one_line_per_row_witness :
  Csv.readlines (csv_text ["title0"; "title1"] [["a,b"; "c"]; [""; "|"]])
  = map Csv.writerow [["title0"; "title1"]; ["a,b"; "c"]; [""; "|"]]
  /\ List.length
       (Csv.readlines (csv_text ["title0"; "title1"] [["a,b"; "c"]; [""; "|"]]))
     = 3%nat.
Proof.
  apply (csv_text_one_line_per_row ["title0"; "title1"]
           [["a,b"; "c"]; [""; "|"]]).
  repeat constructor.
Defined.

(** ** Timestamp tables in the CSV file *)

Lemma has_special_append (a b : string) :
  Csv.has_special (a ++ b) = Csv.has_special a || Csv.has_special b.
Proof.
  induction a as [|c a IH]; [reflexivity|].
  cbn [append Csv.has_special]. now rewrite IH, orb_assoc.
Qed.

Lemma string_of_uint_plain (d : Decimal.uint) :
  Csv.has_special (NilEmpty.string_of_uint d) = false.
Proof. induction d; simpl; auto. Qed.

(** A numeral needs no quotes and is not empty. *)
Lemma str_plain (z : Z) : Csv.has_special (Py.str z) = false /\ Py.str z <> "".
Proof.
  unfold Py.str. destruct (Z.to_int z) as [d|d]; simpl; split;
    destruct d; simpl; auto using string_of_uint_plain; discriminate.
Qed.

Lemma join_head (sep f : string) (fs : list string) :
  exists rest, Py.join sep (f :: fs) = f ++ rest.
Proof.
  destruct fs as [|g fs].
  - exists "". cbn [Py.join String.concat]. now rewrite append_nil_r.
  - eexists. reflexivity.
Qed.

(** A row of fields that need no quotes and are not empty is written as
    the fields joined by commas. *)
Lemma writerow_plain (row : list string) :
  Forall (fun field => Csv.has_special field = false /\ field <> "") row ->
  Csv.writerow row
  = Py.join (String Csv.delimiter "") row ++ Csv.lineterminator.
Proof.
  intros Hrow. unfold Csv.writerow. cbv zeta.
  assert (Hmap : map Csv.encode row = row).
  { induction Hrow as [|f fs [Hf _] _ IH]; [reflexivity|].
    cbn [map]. now rewrite IH, (CsvRoundTrip.encode_plain f Hf). }
  rewrite Hmap. destruct Hrow as [|f fs [_ Hne] _]; [reflexivity|].
  destruct (join_head (String Csv.delimiter "") f fs) as (rest & ->).
  destruct f as [|c f]; [easy|]. reflexivity.
Qed.

Section TimestampCsv.

Context {E : Externals}.

(** X15. The CSV file of a timestamp table under generated titles holds no
    quote: the title line is the titles joined by commas, and every row of
    the table is written as its numerals joined by commas, each line
    closed by CR LF. *)
Theorem timestamp_table_is_written_unquoted
  (number_of_rows number_of_columns : Z) (w : World E) :
  exists table_data w',
    generate_data number_of_rows number_of_columns false w
      = (Return table_data, w')
    /\ csv_text (get_table_title number_of_columns "title") table_data
       = Py.join "," (get_table_title number_of_columns "title")
         ++ Csv.lineterminator
         ++ fold_right
              (fun row text => Py.join "," row ++ Csv.lineterminator ++ text)
              "" table_data.
Proof.
  destruct (generate_data_shape
              (fun cell => Csv.has_special cell = false /\ cell <> "")
              false) with (rows := number_of_rows)
                          (cols := number_of_columns) (w := w)
    as (table_data & w' & Hrun & _ & Hall & _).
  { intros w0. unfold bind, now, ret.
    destruct (time_time (clock w0)) as [t c'].
    eexists _, _. split; [reflexivity|]. split; [apply str_plain | reflexivity]. }
  exists table_data, w'. split; [exact Hrun|].
  unfold csv_text. rewrite CsvRoundTrip.fold_left_rows.
  rewrite writerow_plain.
  2: { unfold get_table_title. apply Forall_map, Forall_forall.
       intros i _. rewrite has_special_append.
       split; [now rewrite (proj1 (str_plain i)) | discriminate]. }
  rewrite append_assoc. do 2 f_equal. clear Hrun.
  induction Hall as [|row rows [_ Hrow] _ IH]; [reflexivity|].
  cbn [fold_right]. rewrite IH, (writerow_plain row Hrow), append_assoc.
  reflexivity.
Qed.

End TimestampCsv.

(** ** The schema *)

Lemma repeat_str_length (s : string) (n : nat) :
  String.length (Py.repeat_str s n) = (n * String.length s)%nat.
Proof.
  induction n as [|n IH]; [reflexivity|].
  cbn [Py.repeat_str]. rewrite length_append, IH. reflexivity.
Qed.

(** X16. The schema of [get_schema] tells the number of columns: its
    length is one more than the column count times the length of a
    bordered column, so two counts that are not negative give the same
    schema only when they are equal; a zero or negative count gives the
    closing border alone. *)
Theorem get_schema_counts_columns (n m : Z) (text_position : string) :
  String.length (get_schema n text_position)
  = (Z.to_nat n * S (String.length text_position) + 1)%nat
  /\ (0 <= n -> 0 <= m ->
      get_schema n text_position = get_schema m text_position -> n = m)
  /\ (n <= 0 -> get_schema n text_position = "|").
Proof.
  assert (Hlen : forall k,
            String.length (get_schema k text_position)
            = (Z.to_nat k * S (String.length text_position) + 1)%nat).
  { intros k. unfold get_schema, Py.mul.
    rewrite length_append, repeat_str_length. reflexivity. }
  split; [apply Hlen|]. split.
  - intros Hn Hm Heq. apply (f_equal String.length) in Heq.
    rewrite !Hlen in Heq. nia.
  - intros Hn. unfold get_schema, Py.mul.
    replace (Z.to_nat n) with 0%nat by lia. reflexivity.
Qed.

Lemma get_schema_counts_columns_witness :
  String.length (get_schema 3 "l")
  = (Z.to_nat 3 * S (String.length "l") + 1)%nat
  /\ (get_schema 3 "l" = get_schema 3 "l" -> 3 = 3)
  /\ get_schema (-2) "l" = "|".
Proof.
  split; [apply (get_schema_counts_columns 3 3 "l")|]. split.
  - apply (proj1 (proj2 (get_schema_counts_columns 3 3 "l"))); lia.
  - apply (proj2 (proj2 (get_schema_counts_columns (-2) 0 "l"))). lia.
Defined.
